(** * count-lines.py: exclusion filter, traversal and aggregation

    A shallow embedding of [scripts/count-lines.py] (and of the older
    [count-lines.py] at the top of the repository, which differs in the rule
    table and in the command line) together with the properties of the
    exclusion filter, the traversal and the report.

    Conventions of the embedding.
    - Python [str] is [string], read as its UTF-8 bytes; [str.lower] is
      modelled on the ASCII range.  That is exact for the "log" test, since
      no character outside [A-Z] lowers to one of the letters l, o, g.  It is
      not exact for the "backup" test of the project rules: Python lowers
      U+212A KELVIN SIGN to the letter k, so a name spelling "backup" with
      that sign is excluded by the script and not by this model.  Nothing
      proved below rests on that branch.
    - [pathlib.Path] follows the POSIX flavour: a path is its anchor (the
      empty string for a relative path) and its list of segments.
    - An exception is a [None] result; the only exception the filter can
      raise is the [ValueError] of [Path.relative_to].
    - The file system under the scanned directory is a finite tree of
      directories and files; what [open]/iteration does to a file under a
      given encoding is recorded in the file's [file_data]. *)

From Stdlib Require Import Bool Arith Lia List String Ascii.
From Stdlib Require Import Permutation Sorted.
From Stdlib Require Import Numbers.DecimalString Numbers.DecimalNat.
From Stdlib Require OrderedTypeEx.
Import ListNotations.

Open Scope list_scope.
Open Scope string_scope.
Open Scope nat_scope.

(* ------------------------------------------------------------------ *)
(** ** Python string operations *)

Module PyStr.

(** [c.lower()] on one ASCII character. *)
Definition lower_ascii (c : ascii) : ascii :=
  let n := nat_of_ascii c in
  if (65 <=? n) && (n <=? 90) then ascii_of_nat (n + 32) else c.

(** [s.lower()] *)
Fixpoint lower (s : string) : string :=
  match s with
  | EmptyString => EmptyString
  | String c s' => String (lower_ascii c) (lower s')
  end.

(** [s.startswith(p)] *)
Definition startswith (s p : string) : bool := String.prefix p s.

(** [needle in hay] for strings. *)
Fixpoint contains (needle hay : string) : bool :=
  String.prefix needle hay ||
  match hay with
  | EmptyString => false
  | String _ hay' => contains needle hay'
  end.

(** [x in xs] for a tuple or list of strings. *)
Definition mem (x : string) (xs : list string) : bool :=
  existsb (String.eqb x) xs.

(** [sep.join(xs)] *)
Fixpoint join (sep : string) (xs : list string) : string :=
  match xs with
  | [] => ""
  | [x] => x
  | x :: xs' => x ++ sep ++ join sep xs'
  end.

(** [s.rfind('.')], [None] standing for -1. *)
Fixpoint rfind_dot (s : string) : option nat :=
  match s with
  | EmptyString => None
  | String c s' =>
      match rfind_dot s' with
      | Some i => Some (S i)
      | None => if Ascii.eqb c "."%char then Some 0 else None
      end
  end.

(** [s.split(sep)] for a one-character separator. *)
Fixpoint split (sep : ascii) (s : string) : list string :=
  match s with
  | EmptyString => [""]
  | String c s' =>
      if Ascii.eqb c sep then "" :: split sep s'
      else match split sep s' with
           | [] => [String c ""]
           | w :: ws => String c w :: ws
           end
  end.

End PyStr.

(* ------------------------------------------------------------------ *)
(** ** pathlib paths (POSIX flavour) *)

Record Path : Type := mkPath {
  anchor : string;          (* drive and root: "/" or "" *)
  segs : list string        (* the segments after the anchor *)
}.

Module Pathlib.

(** [p.parts] *)
Definition parts (p : Path) : list string :=
  if String.eqb (anchor p) "" then segs p else anchor p :: segs p.

(** [str(p)] *)
Definition str (p : Path) : string :=
  match anchor p, segs p with
  | EmptyString, [] => "."
  | a, ss => a ++ PyStr.join "/" ss
  end.

(** [p.name] *)
Definition name (p : Path) : string := last (segs p) "".

(** [p.suffix]: [i = name.rfind('.')], the tail from [i] when
    [0 < i < len(name) - 1], else the empty string. *)
Definition suffix (p : Path) : string :=
  let n := name p in
  match PyStr.rfind_dot n with
  | Some i =>
      if (0 <? i) && (i <? String.length n - 1)
      then String.substring i (String.length n - i) n
      else ""
  | None => ""
  end.

(** [p / child] for a single file or directory name. *)
Definition child (p : Path) (c : string) : Path :=
  mkPath (anchor p) (segs p ++ [c]).

(** [p / rel] for a list of segments. *)
Definition extend (p : Path) (rel : list string) : Path :=
  mkPath (anchor p) (segs p ++ rel).

(** [strip_prefix pre l]: the rest of [l] after [pre], when [pre] starts it. *)
Fixpoint strip_prefix (pre l : list string) : option (list string) :=
  match pre, l with
  | [], _ => Some l
  | _ :: _, [] => None
  | x :: pre', y :: l' => if String.eqb x y then strip_prefix pre' l' else None
  end.

(** [p.relative_to(other)]: the remaining relative path, or [None] for the
    [ValueError] raised when [other] does not start [p]. *)
Definition relative_to (p other : Path) : option Path :=
  if String.eqb (anchor p) (anchor other) then
    match strip_prefix (segs other) (segs p) with
    | Some rest => Some (mkPath "" rest)
    | None => None
    end
  else None.

(** [Path(s)]: the anchor is "/" for one leading slash (or three and more),
    "//" for exactly two; empty and "." segments are dropped. *)
Definition parse_anchor (s : string) : string :=
  match s with
  | String "/" (String "/" (String "/" _)) => "/"
  | String "/" (String "/" _) => "//"
  | String "/" _ => "/"
  | _ => ""
  end.

Definition keep_seg (w : string) : bool :=
  negb (String.eqb w "") && negb (String.eqb w ".").

Definition of_string (s : string) : Path :=
  mkPath (parse_anchor s) (filter keep_seg (PyStr.split "/" s)).

(** [os.path.isabs(s)] *)
Definition isabs (s : string) : bool := PyStr.startswith s "/".

End Pathlib.

(* ------------------------------------------------------------------ *)
(** ** The exclusion filter *)

(** [parts[0] if len(parts) > 0 else None] *)
Definition first_part (p : Path) : option string := hd_error (Pathlib.parts p).

(** The project name as [should_exclude] derives it: the first part relative
    to [dev_root]; when the file is outside [dev_root], the first part of
    the path relative to [base_path] (passed as [parts]). *)
Definition project_of (file_path dev_root : Path) (parts : list string)
  : option string :=
  match Pathlib.relative_to file_path dev_root with
  | Some rel_to_dev => first_part rel_to_dev
  | None => hd_error parts
  end.

(** The global exclusions, lines 31 and 35. *)
Definition global_log (file_path : Path) : bool :=
  PyStr.contains "log" (PyStr.lower (Pathlib.str file_path))
  || String.eqb (Pathlib.suffix file_path) ".log".

Definition global_vsix (file_path : Path) : bool :=
  String.eqb (Pathlib.suffix file_path) ".vsix".

(** The chain [if project == ... elif ...] of scripts/count-lines.py; each
    branch whose inner test fails falls through to the final [return False]. *)
Definition project_rules (project : string) (file_path : Path)
  (parts : list string) : bool :=
  let name := Pathlib.name file_path in
  if String.eqb project "alohomora" then
    negb (PyStr.mem name ["common.go"; "alohomora.go"])
  else if String.eqb project "e911" then true
  else if String.eqb project "meraki-api" then
    PyStr.mem "backups" parts || PyStr.mem "logs" parts || PyStr.mem "config" parts
  else if String.eqb project "misc-scripts" then
    String.eqb name "30001_KEVLAR_61F.conf"
    || PyStr.startswith name "hpp3"
    || String.eqb name "vpn_config_output.xlsx"
  else if String.eqb project "defender" then
    String.eqb (Pathlib.suffix file_path) ".csv"
  else if String.eqb project "powershell-console" then
    String.eqb name "npm-packages.json"
    || PyStr.contains "backup" (PyStr.lower name)
    || PyStr.mem "_prod" parts
  else false.

(** The names the rule table of scripts/count-lines.py is keyed by. *)
Definition rule_table_keys : list string :=
  ["alohomora"; "e911"; "meraki-api"; "misc-scripts"; "defender";
   "powershell-console"].

(** [if project:] is false for [None] and for the empty string. *)
Definition truthy (project : option string) : option string :=
  match project with
  | Some p => if String.eqb p "" then None else Some p
  | None => None
  end.

(** [should_exclude(file_path, base_path, dev_root)] of
    scripts/count-lines.py; [None] is the [ValueError] of line 27. *)
Definition should_exclude (file_path base_path dev_root : Path) : option bool :=
  match Pathlib.relative_to file_path base_path with
  | None => None
  | Some rel_path =>
      let parts := Pathlib.parts rel_path in
      if global_log file_path then Some true
      else if global_vsix file_path then Some true
      else
        match truthy (project_of file_path dev_root parts) with
        | Some project => Some (project_rules project file_path parts)
        | None => Some false
        end
  end.

(** The older script at the top of the repository: same function, other
    rule table. *)
Module Legacy.

Definition project_rules (project : string) (file_path : Path)
  (parts : list string) : bool :=
  let name := Pathlib.name file_path in
  if String.eqb project "alohomora" then
    negb (PyStr.mem name ["common.go"; "alohomora.go"])
  else if String.eqb project "e911" then true
  else if String.eqb project "mcampbel@192.168.7.202" then true
  else if String.eqb project "entity-network-hub" then
    negb (String.eqb name "vpn.tf")
  else if String.eqb project "ets-nettools" then
    PyStr.mem "etsnettoolsdev" parts
  else if String.eqb project "meraki-api" then
    PyStr.mem "backups" parts || PyStr.mem "logs" parts || PyStr.mem "config" parts
  else if String.eqb project "misc-scripts" then
    String.eqb name "30001_KEVLAR_61F.conf"
    || PyStr.startswith name "hpp3"
    || String.eqb name "vpn_config_output.xlsx"
  else if String.eqb project "defender" then
    String.eqb (Pathlib.suffix file_path) ".csv"
  else if String.eqb project "powershell-aws-console" then
    String.eqb name "npm-packages.json"
    || PyStr.contains "backup" (PyStr.lower name)
  else false.

Definition should_exclude (file_path base_path dev_root : Path) : option bool :=
  match Pathlib.relative_to file_path base_path with
  | None => None
  | Some rel_path =>
      let parts := Pathlib.parts rel_path in
      if global_log file_path then Some true
      else if global_vsix file_path then Some true
      else
        match truthy (project_of file_path dev_root parts) with
        | Some project => Some (project_rules project file_path parts)
        | None => Some false
        end
  end.

End Legacy.

(* ------------------------------------------------------------------ *)
(** ** Reading a file *)

Inductive encoding : Type := utf_8 | latin_1 | cp1252.

(** What [open(file_path, 'r', encoding=e)] followed by [sum(1 for _ in f)]
    does: it yields the number of lines, or raises. *)
Inductive read_outcome : Type :=
| Lines (n : nat)
| UnicodeDecodeError
| PermissionError
| OtherException.

(** A file, as far as the script can observe it. *)
Definition file_data : Type := encoding -> read_outcome.

Definition encodings : list encoding := [utf_8; latin_1; cp1252].

(** The [for encoding in encodings] loop of [count_lines_in_file]. *)
Fixpoint try_encodings (encs : list encoding) (f : file_data) : nat :=
  match encs with
  | [] => 0                                   (* the final [return 0] *)
  | e :: rest =>
      match f e with
      | Lines n => n
      | UnicodeDecodeError | PermissionError => try_encodings rest f  (* continue *)
      | OtherException => 0                   (* except Exception: return 0 *)
      end
  end.

(** [count_lines_in_file(file_path)], the file at that path being [f]. *)
Definition count_lines_in_file (f : file_data) : nat :=
  try_encodings encodings f.

(** A text file of [n] lines readable under every encoding. *)
Definition text_file (n : nat) : file_data := fun _ => Lines n.

(** A file no encoding can read. *)
Definition unreadable_file : file_data := fun _ => PermissionError.

(** A file that is not valid UTF-8 but reads as Latin-1. *)
Definition latin_file (n : nat) : file_data :=
  fun e => match e with utf_8 => UnicodeDecodeError | _ => Lines n end.

(* ------------------------------------------------------------------ *)
(** ** The directory tree and os.walk *)

#[warnings="-register-all"]
Inductive entry : Type :=
| EFile (name : string) (data : file_data)
| EDir (name : string) (children : list entry).

Definition entry_name (e : entry) : string :=
  match e with EFile n _ => n | EDir n _ => n end.

(** The [dirs] and [files] lists of one directory, in listing order. *)
Definition dir_names (es : list entry) : list string :=
  flat_map (fun e => match e with EDir d _ => [d] | EFile _ _ => [] end) es.

Definition file_entries (es : list entry) : list (string * file_data) :=
  flat_map (fun e => match e with EFile n d => [(n, d)] | EDir _ _ => [] end) es.

(** One [(root, dirs, files)] triple of [os.walk]; each file name comes with
    the file it names. *)
Definition triple : Type := Path * list string * list (string * file_data).

(** [os.walk(top)], top-down, the consumer keeping in [dirs] exactly the
    names [keep] accepts: a directory that is dropped is not descended. *)
Fixpoint walk_entry (keep : string -> bool) (top : Path) (e : entry)
  : list triple :=
  match e with
  | EFile _ _ => []
  | EDir d ch =>
      if keep d then
        let new_path := Pathlib.child top d in
        (new_path, dir_names ch, file_entries ch)
          :: flat_map (walk_entry keep new_path) ch
      else []
  end.

Definition os_walk (keep : string -> bool) (top : Path) (es : list entry)
  : list triple :=
  (top, dir_names es, file_entries es) :: flat_map (walk_entry keep top) es.

(** Line 134: [not d.startswith('.') and d != 'node_modules']. *)
Definition keep_dir (d : string) : bool :=
  negb (PyStr.startswith d ".") && negb (String.eqb d "node_modules").

(* ------------------------------------------------------------------ *)
(** ** Aggregation *)

Record stats : Type := mkStats { files : nat; lines : nat }.

(** [project_stats]: a [defaultdict], kept in insertion order as Python
    dictionaries are. *)
Definition project_dict : Type := list (string * stats).

Definition default_stats : stats := mkStats 0 0.

(** [d[k] = f(d[k])] on the defaultdict: the entry is updated in place, or
    created from the default at the end. *)
Fixpoint dict_update (k : string) (f : stats -> stats) (d : project_dict)
  : project_dict :=
  match d with
  | [] => [(k, f default_stats)]
  | (k', v) :: d' =>
      if String.eqb k k' then (k', f v) :: d'
      else (k', v) :: dict_update k f d'
  end.

Fixpoint dict_get (k : string) (d : project_dict) : option stats :=
  match d with
  | [] => None
  | (k', v) :: d' => if String.eqb k k' then Some v else dict_get k d'
  end.

Inductive item_type : Type := ItemDir | ItemFile.

Record state : Type := mkState {
  project_stats : project_dict;
  excluded_items : list (item_type * Path);
  total_files : nat;
  total_lines : nat;
  excluded_files : nat
}.

Definition init_state : state := mkState [] [] 0 0 0.

(** [rel_path.parts[0] if len(rel_path.parts) > 0 else 'root'] *)
Definition project_key (rel_path : Path) : string :=
  match Pathlib.parts rel_path with
  | [] => "root"
  | p :: _ => p
  end.

(** Lines 157 to 160. *)
Definition tally (project : string) (n : nat) (st : state) : state :=
  let d1 := dict_update project (fun s => mkStats (files s + 1) (lines s)) (project_stats st) in
  let d2 := dict_update project (fun s => mkStats (files s) (lines s + n)) d1 in
  mkState d2 (excluded_items st) (total_files st + 1) (total_lines st + n)
          (excluded_files st).

(** Lines 146 to 149. *)
Definition exclude_file (show_exclusions : bool) (file_path : Path) (st : state)
  : state :=
  mkState (project_stats st)
          (if show_exclusions then excluded_items st ++ [(ItemFile, file_path)]
           else excluded_items st)
          (total_files st) (total_lines st) (excluded_files st + 1).

(** The body of [for file in files], lines 143 to 163.  [None] is the
    [ValueError] that escapes [should_exclude]; the [try] of line 151 turns a
    failing [relative_to] into [continue]. *)
Definition process_file (base_path dev_root : Path) (show_exclusions : bool)
  (root : Path) (st : state) (file : string * file_data) : option state :=
  let file_path := Pathlib.child root (fst file) in
  match should_exclude file_path base_path dev_root with
  | None => None
  | Some true => Some (exclude_file show_exclusions file_path st)
  | Some false =>
      match Pathlib.relative_to file_path base_path with
      | None => Some st
      | Some rel_path =>
          Some (tally (project_key rel_path) (count_lines_in_file (snd file)) st)
      end
  end.

(** A loop whose body may raise. *)
Fixpoint for_each {A S : Type} (body : S -> A -> option S) (xs : list A) (s : S)
  : option S :=
  match xs with
  | [] => Some s
  | x :: xs' =>
      match body s x with
      | Some s' => for_each body xs' s'
      | None => None
      end
  end.

(** Lines 137 to 140. *)
Definition track_excluded_dirs (root : Path) (original_dirs dirs : list string)
  (st : state) : state :=
  mkState (project_stats st)
          (excluded_items st ++
             map (fun d => (ItemDir, Pathlib.child root d))
                 (filter (fun d => negb (PyStr.mem d dirs)) original_dirs))
          (total_files st) (total_lines st) (excluded_files st).

(** The body of [for root, dirs, files in os.walk(base_path)]. *)
Definition process_dir (base_path dev_root : Path) (show_exclusions : bool)
  (st : state) (t : triple) : option state :=
  let '(root, original_dirs, files) := t in
  let dirs := filter keep_dir original_dirs in
  let st1 := if show_exclusions
             then track_excluded_dirs root original_dirs dirs st else st in
  for_each (process_file base_path dev_root show_exclusions root) files st1.

(** The traversal of [count_project_lines], lines 121 to 163, over the
    directory [tree] found at [base_path]. *)
Definition traverse (base_path : Path) (dev_root : option Path)
  (show_exclusions : bool) (tree : list entry) : option state :=
  let dev_root := match dev_root with Some d => d | None => base_path end in
  for_each (process_dir base_path dev_root show_exclusions)
           (os_walk keep_dir base_path tree) init_state.

(** [sorted(items, key=lambda x: x[1]['lines'], reverse=True)]: Python's sort
    is stable, also under [reverse=True]. *)
Definition sort_key (x : string * stats) : nat := lines (snd x).

Fixpoint insert_desc (x : string * stats) (l : list (string * stats))
  : list (string * stats) :=
  match l with
  | [] => [x]
  | y :: l' =>
      if sort_key x <? sort_key y then y :: insert_desc x l' else x :: y :: l'
  end.

Definition sorted_desc (l : list (string * stats)) : list (string * stats) :=
  fold_right insert_desc [] l.

(** What [count_project_lines] reports: the rows in print order, the total
    row and the excluded-file count. *)
Record report : Type := mkReport {
  rows : list (string * stats);
  total_row : nat * nat;
  excluded_count : nat;
  exclusion_log : list (item_type * Path)
}.

Definition report_of (st : state) : report :=
  mkReport (sorted_desc (project_stats st))
           (total_files st, total_lines st)
           (excluded_files st) (excluded_items st).

Definition count_project_lines (base_path : Path) (dev_root : option Path)
  (show_exclusions : bool) (tree : list entry) : option report :=
  option_map report_of (traverse base_path dev_root show_exclusions tree).

(** The example tree of the specification. *)
Definition spec_tree : list entry :=
  [EDir "projA" [EFile "a.txt" (text_file 3); EFile "b.log" (text_file 10)];
   EDir "projB" [EFile "c.txt" (text_file 5)]].

(* ------------------------------------------------------------------ *)
(** ** The command line *)

(** [f"{n:,}"] *)
Fixpoint group3 (rev_digits : list ascii) (k : nat) : list ascii :=
  match rev_digits with
  | [] => []
  | c :: l' =>
      match k with
      | 0 => ","%char :: c :: group3 l' 2
      | S k' => c :: group3 l' k'
      end
  end.

Definition format_commas (n : nat) : string :=
  string_of_list_ascii
    (rev (group3 (rev (list_ascii_of_string
                         (NilEmpty.string_of_uint (Nat.to_uint n)))) 3)).

(** What the script finds at a path. *)
Inductive fnode : Type :=
| Missing
| RegularFile (data : file_data)
| Directory (tree : list entry).

Definition exists_ (n : fnode) : bool :=
  match n with Missing => false | _ => true end.

(** What a run does, in order. *)
Inductive event : Type :=
| Print (s : string)
| Call_count_project_lines (base_path dev_root : Path) (show_exclusions : bool)
| Exit (code : nat).

(** [args.remove(x)]: the first occurrence goes. *)
Fixpoint remove_first (x : string) (args : list string) : list string :=
  match args with
  | [] => []
  | a :: args' => if String.eqb a x then args' else a :: remove_first x args'
  end.

(** [Path(os.getcwd()) / target_path] *)
Definition joinpath (p : Path) (s : string) : Path :=
  let q := Pathlib.of_string s in
  if String.eqb (anchor q) "" then Pathlib.extend p (segs q) else q.

(** The reading of [config.json]: the message of the exception caught at
    line 244, or the [devRoot] path. *)
Definition config_result : Type := (string + Path)%type.

Definition newline : string := String (ascii_of_nat 10) "".

(** Lines 254 to 261: the flag is taken out of the arguments, the first one
    left is the target. *)
Definition show_flag (argv : list string) : bool :=
  PyStr.mem "--show-exclusions" argv.

Definition target_of (argv : list string) : option string :=
  hd_error (if show_flag argv
            then remove_first "--show-exclusions" argv else argv).

(** Lines 265 to 269. *)
Definition resolve (cwd target_path : string) : Path :=
  if Pathlib.isabs target_path then Pathlib.of_string target_path
  else joinpath (Pathlib.of_string cwd) target_path.

(** The [__main__] block of scripts/count-lines.py.  [argv] is
    [sys.argv[1:]], [cwd] is [os.getcwd()] and [fs] tells what is at a path.
    The runs modelled are those in which nothing raises past the script's
    own handlers: reading [config.json] either succeeds or raises one of
    the three exceptions caught at line 244, and [exists()] and [is_file()]
    answer without raising. *)
Definition main (config : config_result) (config_path : string)
  (argv : list string) (cwd : string) (fs : Path -> fnode) : list event :=
  match config with
  | inl e =>
      [Print ("Error: Could not read devRoot from config.json: " ++ e);
       Print ("Expected config at: " ++ config_path);
       Exit 1]
  | inr dev_root =>
      let show_exclusions := show_flag argv in
      match truthy (target_of argv) with
      | Some target_path =>
          let base_path := resolve cwd target_path in
          if negb (exists_ (fs base_path)) then
            [Print ("Error: Path does not exist: " ++ Pathlib.str base_path);
             Exit 1]
          else
            match fs base_path with
            | RegularFile data =>
                [Print (newline ++ "Counting single file: " ++ Pathlib.str base_path);
                 Print ("Lines: " ++ format_commas (count_lines_in_file data));
                 Exit 0]
            | _ =>
                [Call_count_project_lines base_path dev_root show_exclusions;
                 Exit 0]
            end
      | None =>
          [Call_count_project_lines dev_root dev_root show_exclusions; Exit 0]
      end
  end.

(* ------------------------------------------------------------------ *)
(** ** What the traversal is measured against *)

(** A file the walk hands to the loop body: the path built at line 143 and
    the file found there. *)
Definition walked : Type := (Path * file_data)%type.

Definition files_of_triple (t : triple) : list walked :=
  map (fun f => (Pathlib.child (fst (fst t)) (fst f), snd f)) (snd t).

(** The files a traversal of [tree] at [base_path] encounters, in order. *)
Definition walked_files (base_path : Path) (tree : list entry) : list walked :=
  flat_map files_of_triple (os_walk keep_dir base_path tree).

(** The verdict of the filter on a walked file. *)
Definition is_included (base_path dev_root : Path) (w : walked) : bool :=
  match should_exclude (fst w) base_path dev_root with
  | Some false => true
  | _ => false
  end.

Definition is_excluded (base_path dev_root : Path) (w : walked) : bool :=
  match should_exclude (fst w) base_path dev_root with
  | Some true => true
  | _ => false
  end.

Definition included (base_path dev_root : Path) (ws : list walked) : list walked :=
  filter (is_included base_path dev_root) ws.

(** The aggregation key of line 153 and the line count of line 155. *)
Definition key_of (base_path : Path) (w : walked) : string :=
  match Pathlib.relative_to (fst w) base_path with
  | Some rel_path => project_key rel_path
  | None => "root"
  end.

Definition lines_of (w : walked) : nat := count_lines_in_file (snd w).

Definition of_key (base_path : Path) (k : string) (ws : list walked) : list walked :=
  filter (fun w => String.eqb (key_of base_path w) k) ws.

(** The counters a project must end with, given the included files. *)
Definition expected_stats (base_path : Path) (k : string) (ws : list walked)
  : option stats :=
  match of_key base_path k ws with
  | [] => None
  | m => Some (mkStats (List.length m) (list_sum (map lines_of m)))
  end.

(** Keys in the order in which they are first met. *)
Definition first_seen (ks : list string) : list string :=
  fold_left (fun acc k => if PyStr.mem k acc then acc else (acc ++ [k])%list) ks [].

Definition sum_files (d : project_dict) : nat :=
  list_sum (map (fun kv => files (snd kv)) d).

Definition sum_lines (d : project_dict) : nat :=
  list_sum (map (fun kv => lines (snd kv)) d).

(** The state of the loop after the files [ws] have gone through it. *)
Record accounts (base_path dev_root : Path) (ws : list walked) (st : state)
  : Prop := mkAccounts {
  acc_files : total_files st = List.length (included base_path dev_root ws);
  acc_lines : total_lines st
              = list_sum (map lines_of (included base_path dev_root ws));
  acc_excluded : excluded_files st
                 = List.length (filter (is_excluded base_path dev_root) ws);
  acc_get : forall k, dict_get k (project_stats st)
                      = expected_stats base_path k (included base_path dev_root ws);
  acc_keys : map fst (project_stats st)
             = first_seen (map (key_of base_path) (included base_path dev_root ws));
  acc_sum_files : sum_files (project_stats st) = total_files st;
  acc_sum_lines : sum_lines (project_stats st) = total_lines st;
  acc_all : total_files st + excluded_files st = List.length ws
}.

(** One project's counters grow by [(df, dl)], the others stay. *)
Definition bumps (project : string) (df dl : nat) (d d' : project_dict) : Prop :=
  forall k,
    dict_get k d' =
      if String.eqb k project then
        match dict_get project d with
        | Some v => Some (mkStats (files v + df) (lines v + dl))
        | None => Some (mkStats df dl)
        end
      else dict_get k d.

(** Rows in descending order of line count. *)
Definition ge_lines (x y : string * stats) : Prop := sort_key y <= sort_key x.

(** The rows with a given line count, in the order in which they stand. *)
Definition with_lines (n : nat) (l : list (string * stats)) : list (string * stats) :=
  filter (fun x => sort_key x =? n) l.

(** Two listings of one directory: the same two one-file projects, met in
    either order. *)
Definition tie_tree_ab : list entry :=
  [EDir "a" [EFile "x.txt" (text_file 1)];
   EDir "b" [EFile "y.txt" (text_file 1)]].

Definition tie_tree_ba : list entry :=
  [EDir "b" [EFile "y.txt" (text_file 1)];
   EDir "a" [EFile "x.txt" (text_file 1)]].

(** A file system holding the regular file /srv/a.txt, of three lines, and
    nothing else. *)
Definition single_file_fs (p : Path) : fnode :=
  if String.eqb (Pathlib.str p) "/srv/a.txt"
  then RegularFile (text_file 3) else Missing.

(** A tree with a hidden directory and a dependency cache next to a
    project. *)
Definition pruned_tree : list entry :=
  [EDir ".git" [EFile "config" (text_file 9)];
   EDir "node_modules" [EDir "pkg" [EFile "index.js" (text_file 100)]];
   EDir "projA" [EFile "a.txt" (latin_file 3);
                 EDir "sub" [EFile "b.txt" (text_file 2)];
                 EFile "c.vsix" (text_file 50)]].

(** A file lying directly in the scanned directory, as the walk hands it
    over. *)
Definition top_file (base_path : Path) (f : string * file_data) : walked :=
  (Pathlib.child base_path (fst f), snd f).

(** Induction over a directory tree. *)
Fixpoint entry_ind2 (P : entry -> Prop)
  (Hfile : forall n d, P (EFile n d))
  (Hdir : forall n ch, Forall P ch -> P (EDir n ch))
  (e : entry) : P e :=
  match e with
  | EFile n d => Hfile n d
  | EDir n ch =>
      Hdir n ch
        ((fix go (l : list entry) : Forall P l :=
            match l with
            | [] => Forall_nil P
            | x :: l' => Forall_cons x (entry_ind2 P Hfile Hdir x) (go l')
            end) ch)
  end.

(* ------------------------------------------------------------------ *)
(** ** Further yardsticks *)

(** The keys on which the rule tables of the two scripts differ. *)
Definition changed_keys : list string :=
  ["mcampbel@192.168.7.202"; "entity-network-hub"; "ets-nettools";
   "powershell-aws-console"; "powershell-console"].

(** The encodings tried before [e] all raised an error that lets the loop
    of [count_lines_in_file] go on. *)
Definition skippable (o : read_outcome) : bool :=
  match o with
  | UnicodeDecodeError | PermissionError => true
  | _ => false
  end.

(** Every file of a tree, with the directory names that lead to it, in the
    order of a top-down walk that prunes nothing. *)
Definition located : Type := (list string * (string * file_data))%type.

Fixpoint entry_files (ds : list string) (e : entry) : list located :=
  match e with
  | EFile _ _ => []
  | EDir n ch =>
      (map (fun f => ((ds ++ [n])%list, f)) (file_entries ch)
       ++ flat_map (entry_files (ds ++ [n])%list) ch)%list
  end.

Definition all_files (es : list entry) : list located :=
  (map (fun f => ([], f)) (file_entries es) ++ flat_map (entry_files []) es)%list.

(** No directory on the way to the file is hidden or a dependency cache. *)
Definition reachable (x : located) : bool := forallb keep_dir (fst x).

Definition to_walked (base_path : Path) (x : located) : walked :=
  (Pathlib.extend base_path (fst x ++ [fst (snd x)])%list, snd (snd x)).

(** Two states of the loop that differ at most in the exclusion log. *)
Definition same_counts (st st' : state) : Prop :=
  project_stats st = project_stats st'
  /\ total_files st = total_files st'
  /\ total_lines st = total_lines st'
  /\ excluded_files st = excluded_files st'.

(** The entries of the exclusion log of one kind. *)
Definition is_file_item (i : item_type * Path) : bool :=
  match fst i with ItemFile => true | ItemDir => false end.

Definition is_dir_item (i : item_type * Path) : bool :=
  match fst i with ItemDir => true | ItemFile => false end.

(** The thousands separators taken out again. *)
Fixpoint strip_commas (s : string) : string :=
  match s with
  | EmptyString => EmptyString
  | String c s' =>
      if Ascii.eqb c ","%char then strip_commas s' else String c (strip_commas s')
  end.

(** Two runs of a loop whose body may raise end alike. *)
Definition option_rel {S T : Type} (R : S -> T -> Prop) (a : option S)
  (b : option T) : Prop :=
  match a, b with
  | Some x, Some y => R x y
  | None, None => True
  | _, _ => False
  end.

(** The relation the two runs keep: same counters, and no log without the
    flag. *)
Definition log_only (s0 s1 : state) : Prop :=
  same_counts s0 s1 /\ excluded_items s0 = [].

(** A character of a numeral, as opposed to a separator. *)
Definition not_comma (c : ascii) : bool := negb (Ascii.eqb c ","%char).

(* ------------------------------------------------------------------ *)
(** ** The listing of exclusions, lines 200 to 229 *)

(** The value of one project in [exclusions_by_project]. *)
Record group : Type := mkGroup { g_dirs : list string; g_files : list string }.

Definition empty_group : group := mkGroup [] [].

Definition group_dict : Type := list (string * group).

(** [d[k] = f(d[k])] on the defaultdict of groups. *)
Fixpoint group_update (k : string) (f : group -> group) (d : group_dict)
  : group_dict :=
  match d with
  | [] => [(k, f empty_group)]
  | (k', v) :: d' =>
      if String.eqb k k' then (k', f v) :: d'
      else (k', v) :: group_update k f d'
  end.

Fixpoint group_get (k : string) (d : group_dict) : option group :=
  match d with
  | [] => None
  | (k', v) :: d' => if String.eqb k k' then Some v else group_get k d'
  end.

(** The body of [for item_type, item_path in excluded_items]; an entry that
    is not below [base_path] is skipped by the [except ValueError]. *)
Definition add_exclusion (base_path : Path) (d : group_dict)
  (item : item_type * Path) : group_dict :=
  match Pathlib.relative_to (snd item) base_path with
  | None => d
  | Some rel_path =>
      let project := project_key rel_path in
      match fst item with
      | ItemDir =>
          group_update project
            (fun g => mkGroup (g_dirs g ++ [Pathlib.str rel_path]) (g_files g)) d
      | ItemFile =>
          group_update project
            (fun g => mkGroup (g_dirs g) (g_files g ++ [Pathlib.str rel_path])) d
      end
  end.

Definition exclusions_by_project (base_path : Path)
  (excluded_items : list (item_type * Path)) : group_dict :=
  fold_left (add_exclusion base_path) excluded_items [].

(** [sorted(xs)] on strings; Python compares strings by code point, which
    is the order of their UTF-8 bytes. *)
Fixpoint insert_string (x : string) (l : list string) : list string :=
  match l with
  | [] => [x]
  | y :: l' => if String.leb x y then x :: y :: l' else y :: insert_string x l'
  end.

Definition sort_strings (l : list string) : list string :=
  fold_right insert_string [] l.

(** [sorted(d.items())]: the keys of a dictionary are distinct, so the
    order of the pairs is the order of the keys. *)
Fixpoint insert_group (x : string * group) (l : group_dict) : group_dict :=
  match l with
  | [] => [x]
  | y :: l' =>
      if String.leb (fst x) (fst y) then x :: y :: l' else y :: insert_group x l'
  end.

Definition sort_groups (d : group_dict) : group_dict :=
  fold_right insert_group [] d.

(** What is printed, project by project: the directories, then the files. *)
Definition exclusion_listing (base_path : Path)
  (excluded_items : list (item_type * Path))
  : list (string * (list string * list string)) :=
  map (fun kg => (fst kg, (sort_strings (g_dirs (snd kg)),
                           sort_strings (g_files (snd kg)))))
      (sort_groups (exclusions_by_project base_path excluded_items)).

(** The entries of the log that go under the key [k], and the text printed
    for an entry. *)
Definition in_group (base_path : Path) (k : string) (item : item_type * Path)
  : bool :=
  match Pathlib.relative_to (snd item) base_path with
  | Some rel_path => String.eqb (project_key rel_path) k
  | None => false
  end.

Definition rel_str (base_path : Path) (item : item_type * Path) : string :=
  match Pathlib.relative_to (snd item) base_path with
  | Some rel_path => Pathlib.str rel_path
  | None => ""
  end.

Definition group_of (base_path : Path) (m : list (item_type * Path)) : group :=
  mkGroup (map (rel_str base_path) (filter is_dir_item m))
          (map (rel_str base_path) (filter is_file_item m)).

Definition expected_group (base_path : Path) (k : string)
  (items : list (item_type * Path)) : option group :=
  match filter (in_group base_path k) items with
  | [] => None
  | m => Some (group_of base_path m)
  end.

Definition string_le (a b : string) : Prop := String.leb a b = true.

(** A log as the traversal of [pruned_tree] leaves it. *)
Definition sample_log : list (item_type * Path) :=
  [(ItemDir, mkPath "/" ["dev"; ".git"]);
   (ItemDir, mkPath "/" ["dev"; "node_modules"]);
   (ItemFile, mkPath "/" ["dev"; "projA"; "c.vsix"]);
   (ItemFile, mkPath "/" ["dev"; "projA"; "b.log"]);
   (ItemDir, mkPath "/" ["dev"; "projA"; ".cache"])].

(* ------------------------------------------------------------------ *)
(** * Properties *)

(** ** The definitions on concrete inputs *)

Example suffix_ex1 : Pathlib.suffix (Pathlib.of_string "/a/b/x.tar.gz") = ".gz".
Proof. reflexivity. Qed.

Example suffix_ex2 : Pathlib.suffix (Pathlib.of_string "/a/.bashrc") = "".
Proof. reflexivity. Qed.

Example suffix_ex3 : Pathlib.suffix (Pathlib.of_string "/a/foo.") = "".
Proof. reflexivity. Qed.

Example parse_ex1 : Pathlib.of_string "/home//blog/./a.txt"
                    = mkPath "/" ["home"; "blog"; "a.txt"].
Proof. reflexivity. Qed.

Example str_ex1 : Pathlib.str (mkPath "/" ["home"; "blog"; "a.txt"]) = "/home/blog/a.txt".
Proof. reflexivity. Qed.

Example excl_ex1 :
  should_exclude (Pathlib.of_string "/dev/projA/b.log") (Pathlib.of_string "/dev")
                 (Pathlib.of_string "/dev") = Some true.
Proof. reflexivity. Qed.

Example excl_ex2 :
  should_exclude (Pathlib.of_string "/dev/projA/a.txt") (Pathlib.of_string "/dev")
                 (Pathlib.of_string "/dev") = Some false.
Proof. reflexivity. Qed.

Example spec_tree_report :
  count_project_lines (mkPath "/" ["dev"]) None false spec_tree
  = Some (mkReport [("projB", mkStats 1 5); ("projA", mkStats 1 3)] (2, 8) 1 []).
Proof. reflexivity. Qed.

Example latin_file_ex : count_lines_in_file (latin_file 7) = 7.
Proof. reflexivity. Qed.

Example pruned_tree_report :
  count_project_lines (mkPath "/" ["dev"]) None true pruned_tree
  = Some (mkReport [("projA", mkStats 2 5)] (2, 5) 1
            [(ItemDir, mkPath "/" ["dev"; ".git"]);
             (ItemDir, mkPath "/" ["dev"; "node_modules"]);
             (ItemFile, mkPath "/" ["dev"; "projA"; "c.vsix"])]).
Proof. reflexivity. Qed.

Example main_directory_ex :
  main (inr (mkPath "/" ["dev"])) "/opt/tool/config.json" ["--show-exclusions"] "/"
       (fun _ => Directory spec_tree)
  = [Call_count_project_lines (mkPath "/" ["dev"]) (mkPath "/" ["dev"]) true;
     Exit 0].
Proof. reflexivity. Qed.

Example main_missing_ex :
  main (inr (mkPath "/" ["dev"])) "/opt/tool/config.json" ["nowhere"] "/srv"
       single_file_fs
  = [Print "Error: Path does not exist: /srv/nowhere"; Exit 1].
Proof. reflexivity. Qed.

Example exclusion_listing_ex :
  exclusion_listing (mkPath "/" ["dev"]) sample_log
  = [(".git", ([".git"], []));
     ("node_modules", (["node_modules"], []));
     ("projA", (["projA/.cache"], ["projA/b.log"; "projA/c.vsix"]))].
Proof. reflexivity. Qed.

Example format_commas_ex : format_commas 4321 = "4,321".
Proof. reflexivity. Qed.

Example format_commas_ex0 : format_commas 0 = "0".
Proof. reflexivity. Qed.

Example format_commas_ex3 : format_commas 999 = "999".
Proof. reflexivity. Qed.


(** ** Strings and paths *)

Section StringFacts.

Lemma prefix_app_l (n a b : string) :
  String.prefix n a = true -> String.prefix n (a ++ b) = true.
Proof.
  revert a; induction n as [|c n IH]; intros a H.
  - destruct (a ++ b); reflexivity.
  - destruct a as [|c' a]; simpl in *; [discriminate|].
    destruct (Ascii.ascii_dec c c'); [auto | discriminate].
Qed.

Lemma contains_app_l (n a b : string) :
  PyStr.contains n a = true -> PyStr.contains n (a ++ b) = true.
Proof.
  induction a as [|c a IH]; intros H.
  - cbn [PyStr.contains] in H. rewrite orb_false_r in H.
    destruct n; [destruct b; reflexivity | discriminate].
  - cbn [PyStr.contains] in H. apply orb_true_iff in H.
    change (String c a ++ b) with (String c (a ++ b)).
    cbn [PyStr.contains]. apply orb_true_iff.
    destruct H as [H|H]; [left | right; auto].
    now apply (prefix_app_l n (String c a) b).
Qed.

Lemma lower_app (a b : string) :
  PyStr.lower (a ++ b) = PyStr.lower a ++ PyStr.lower b.
Proof. induction a; simpl; congruence. Qed.

Lemma append_assoc (a b c : string) : (a ++ b) ++ c = a ++ (b ++ c).
Proof. induction a; simpl; congruence. Qed.

Lemma append_nil_r (a : string) : a ++ "" = a.
Proof. induction a; simpl; congruence. Qed.

Lemma join_app (sep : string) (ss r : list string) :
  ss <> [] ->
  exists t, PyStr.join sep (ss ++ r)%list = PyStr.join sep ss ++ t.
Proof.
  induction ss as [|x ss IH]; intros Hne; [congruence|].
  destruct ss as [|y ss].
  - destruct r as [|z r].
    + exists "". simpl. now rewrite append_nil_r.
    + exists (sep ++ PyStr.join sep (z :: r)). reflexivity.
  - destruct IH as [t Ht]; [discriminate|].
    exists t.
    change (PyStr.join sep ((x :: y :: ss) ++ r)%list)
      with (x ++ sep ++ PyStr.join sep ((y :: ss) ++ r)%list).
    rewrite Ht.
    change (PyStr.join sep (x :: y :: ss))
      with (x ++ sep ++ PyStr.join sep (y :: ss)).
    now rewrite !append_assoc.
Qed.

End StringFacts.

Section PathFacts.

Lemma strip_prefix_app (pre rest : list string) :
  Pathlib.strip_prefix pre (pre ++ rest)%list = Some rest.
Proof.
  induction pre as [|x pre IH]; simpl; [reflexivity|].
  now rewrite String.eqb_refl.
Qed.

Lemma strip_prefix_inv (pre l rest : list string) :
  Pathlib.strip_prefix pre l = Some rest -> l = (pre ++ rest)%list.
Proof.
  revert l; induction pre as [|x pre IH]; intros l H; simpl in *.
  - congruence.
  - destruct l as [|y l]; [discriminate|].
    destruct (String.eqb_spec x y); [|discriminate].
    subst. f_equal. auto.
Qed.

(** A path built below [base] is relative to it. *)
Lemma relative_to_extend (base : Path) (rel : list string) :
  Pathlib.relative_to (Pathlib.extend base rel) base = Some (mkPath "" rel).
Proof.
  unfold Pathlib.relative_to, Pathlib.extend; simpl.
  now rewrite String.eqb_refl, strip_prefix_app.
Qed.

Lemma relative_to_inv (p base rel : Path) :
  Pathlib.relative_to p base = Some rel ->
  p = Pathlib.extend base (segs rel) /\ anchor rel = "".
Proof.
  unfold Pathlib.relative_to, Pathlib.extend.
  destruct (String.eqb_spec (anchor p) (anchor base)) as [Ha|]; [|discriminate].
  destruct (Pathlib.strip_prefix (segs base) (segs p)) as [rest|] eqn:E;
    [|discriminate].
  intros H; injection H as <-. simpl.
  apply strip_prefix_inv in E. destruct p as [a s]; simpl in *.
  subst; auto.
Qed.

Lemma child_extend (base : Path) (ds : list string) (name : string) :
  Pathlib.child (Pathlib.extend base ds) name
  = Pathlib.extend base (ds ++ [name])%list.
Proof. unfold Pathlib.child, Pathlib.extend; simpl. now rewrite app_assoc. Qed.

Lemma extend_nil (base : Path) : Pathlib.extend base [] = base.
Proof. destruct base; unfold Pathlib.extend; simpl. now rewrite app_nil_r. Qed.

Lemma parts_relative (rel : list string) :
  Pathlib.parts (mkPath "" rel) = rel.
Proof. reflexivity. Qed.

Lemma str_segs (a : string) (ss : list string) :
  ss <> [] -> Pathlib.str (mkPath a ss) = a ++ PyStr.join "/" ss.
Proof. unfold Pathlib.str; destruct a; destruct ss; simpl; congruence. Qed.

Lemma str_anchor (a : string) (ss : list string) :
  a <> "" -> Pathlib.str (mkPath a ss) = a ++ PyStr.join "/" ss.
Proof. unfold Pathlib.str; destruct a; destruct ss; simpl; congruence. Qed.

(** The string of a path starts every path below it, but for the empty
    relative path, whose string is the dot. *)
Lemma str_extend (base : Path) (rel : list string) :
  Pathlib.str base <> "." ->
  exists t, Pathlib.str (Pathlib.extend base rel) = Pathlib.str base ++ t.
Proof.
  destruct base as [a ss]; unfold Pathlib.extend; simpl.
  intros Hdot. destruct ss as [|s ss].
  - destruct (String.string_dec a "") as [->|Ha]; [now elim Hdot|].
    rewrite !str_anchor by assumption. simpl.
    exists (PyStr.join "/" rel). now rewrite append_nil_r.
  - destruct (join_app "/" (s :: ss) rel) as [t Ht]; [discriminate|].
    exists t. rewrite !str_segs by discriminate.
    rewrite Ht. now rewrite append_assoc.
Qed.

(** The word "log" in the lowered string of a directory is in the lowered
    string of every path below it. *)
Lemma log_in_base_in_file (base : Path) (rel : list string) :
  PyStr.contains "log" (PyStr.lower (Pathlib.str base)) = true ->
  PyStr.contains "log" (PyStr.lower (Pathlib.str (Pathlib.extend base rel))) = true.
Proof.
  intros H.
  destruct (String.string_dec (Pathlib.str base) ".") as [E|E].
  - rewrite E in H. discriminate.
  - destruct (str_extend base rel E) as [t ->].
    rewrite lower_app. now apply contains_app_l.
Qed.

End PathFacts.

(* ------------------------------------------------------------------ *)
(** ** The exclusion filter *)

Section FilterFacts.

Lemma mem_In (x : string) (xs : list string) :
  PyStr.mem x xs = true <-> In x xs.
Proof.
  unfold PyStr.mem. rewrite existsb_exists. split.
  - intros [y [Hy E]]. apply String.eqb_eq in E. now subst.
  - intros H. exists x. split; [assumption | apply String.eqb_refl].
Qed.

Lemma project_rules_unmatched (p : string) (fp : Path) (parts : list string) :
  ~ In p rule_table_keys -> project_rules p fp parts = false.
Proof.
  intros H. unfold project_rules.
  repeat match goal with
  | |- context [String.eqb p ?k] =>
      destruct (String.eqb_spec p k) as [->|_];
        [exfalso; apply H; simpl; tauto|]
  end.
  reflexivity.
Qed.

(** Both scripts open with the same tests: a failing [relative_to] raises,
    then the two global exclusions return. *)
Lemma should_exclude_under (base dev : Path) (rel : list string) :
  let fp := Pathlib.extend base rel in
  should_exclude fp base dev =
    if global_log fp then Some true
    else if global_vsix fp then Some true
    else match truthy (project_of fp dev rel) with
         | Some project => Some (project_rules project fp rel)
         | None => Some false
         end.
Proof.
  intros fp. unfold should_exclude, fp.
  now rewrite relative_to_extend, parts_relative.
Qed.

Lemma legacy_should_exclude_under (base dev : Path) (rel : list string) :
  let fp := Pathlib.extend base rel in
  Legacy.should_exclude fp base dev =
    if global_log fp then Some true
    else if global_vsix fp then Some true
    else match truthy (project_of fp dev rel) with
         | Some project => Some (Legacy.project_rules project fp rel)
         | None => Some false
         end.
Proof.
  intros fp. unfold Legacy.should_exclude, fp.
  now rewrite relative_to_extend, parts_relative.
Qed.

Lemma should_exclude_total (base dev : Path) (rel : list string) :
  exists b, should_exclude (Pathlib.extend base rel) base dev = Some b.
Proof.
  rewrite should_exclude_under.
  destruct (global_log _); [eauto|].
  destruct (global_vsix _); [eauto|].
  destruct (truthy _); eauto.
Qed.

(** The suffix is a function of the name. *)
Lemma suffix_of_name (fp : Path) (n : string) :
  Pathlib.name fp = n -> Pathlib.suffix fp = Pathlib.suffix (mkPath "" [n]).
Proof. unfold Pathlib.suffix. simpl. now intros ->. Qed.

Lemma designated_not_global (fp : Path) :
  In (Pathlib.name fp) ["common.go"; "alohomora.go"] ->
  String.eqb (Pathlib.suffix fp) ".log" = false /\ global_vsix fp = false.
Proof.
  unfold global_vsix.
  intros [H|[H|[]]]; symmetry in H; rewrite (suffix_of_name fp _ H);
    split; reflexivity.
Qed.

End FilterFacts.

(** C2.  A file below [base_path] whose lowered path string contains "log",
    or whose suffix is ".log", is excluded by [should_exclude] whatever
    [dev_root] (hence whatever project) it is classified under, in the
    script of scripts/ and in the older one alike. *)
Theorem global_log_always_excluded (base_path dev_root : Path) (rel : list string) :
  let file_path := Pathlib.extend base_path rel in
  PyStr.contains "log" (PyStr.lower (Pathlib.str file_path)) = true
  \/ Pathlib.suffix file_path = ".log" ->
  should_exclude file_path base_path dev_root = Some true
  /\ Legacy.should_exclude file_path base_path dev_root = Some true.
Proof.
  intros fp H.
  assert (G : global_log fp = true).
  { unfold global_log. apply orb_true_iff.
    destruct H as [H|H]; [left; exact H | right; rewrite H; reflexivity]. }
  unfold fp in *.
  rewrite should_exclude_under, legacy_should_exclude_under.
  cbv zeta. rewrite G. split; reflexivity.
Qed.

Lemma global_log_always_excluded_witness :
  should_exclude (mkPath "/" ["dev"; "e911"; "Catalog"; "notes.txt"])
                 (mkPath "/" ["dev"]) (mkPath "/" ["dev"]) = Some true
  /\ Legacy.should_exclude (mkPath "/" ["dev"; "e911"; "Catalog"; "notes.txt"])
                 (mkPath "/" ["dev"]) (mkPath "/" ["dev"]) = Some true.
Proof.
  apply (global_log_always_excluded (mkPath "/" ["dev"]) (mkPath "/" ["dev"])
           ["e911"; "Catalog"; "notes.txt"]).
  left. reflexivity.
Defined.

(** C6, as stated, fails: [should_exclude] raises the [ValueError] of its
    first line on a path that is not below [base_path]. *)
Lemma should_exclude_raises_outside_base :
  ~ exists b, should_exclude (mkPath "/" ["srv"; "notes.txt"])
                             (mkPath "/" ["dev"]) (mkPath "/" ["dev"]) = Some b.
Proof. intros [b H]. vm_compute in H. discriminate. Qed.

(** C6, amended.  On every path below [base_path], which is every path the
    traversal builds, [should_exclude] returns a verdict (it is a function, so
    the verdict is determined by its arguments), and when no global exclusion
    applies and the project name is none of the keys of the rule table, the
    verdict is to include. *)
Theorem should_exclude_default_include (base_path dev_root : Path) (rel : list string) :
  let file_path := Pathlib.extend base_path rel in
  (exists b, should_exclude file_path base_path dev_root = Some b)
  /\ (global_log file_path = false ->
      global_vsix file_path = false ->
      (forall p, project_of file_path dev_root rel = Some p ->
                 ~ In p rule_table_keys) ->
      should_exclude file_path base_path dev_root = Some false).
Proof.
  intros fp. split; [apply should_exclude_total|].
  intros Hlog Hvsix Hkey. unfold fp in *.
  rewrite should_exclude_under. cbv zeta. rewrite Hlog, Hvsix.
  destruct (project_of _ dev_root rel) as [p|] eqn:E; simpl; [|reflexivity].
  destruct (String.eqb p ""); [reflexivity|].
  now rewrite project_rules_unmatched by auto.
Qed.

Lemma should_exclude_default_include_witness :
  should_exclude (mkPath "/" ["dev"; "projA"; "a.txt"])
                 (mkPath "/" ["dev"]) (mkPath "/" ["dev"]) = Some false.
Proof.
  apply (should_exclude_default_include (mkPath "/" ["dev"]) (mkPath "/" ["dev"])
           ["projA"; "a.txt"]).
  - reflexivity.
  - reflexivity.
  - intros p H. vm_compute in H. injection H as <-.
    simpl. intros [H|[H|[H|[H|[H|[H|[]]]]]]]; discriminate.
Defined.

(** C7, as stated, fails: a file of project "alohomora" with a designated
    name is excluded all the same when its path contains "log". *)
Lemma alohomora_designated_name_excluded :
  project_of (mkPath "/" ["dev"; "alohomora"; "logs"; "common.go"])
             (mkPath "/" ["dev"]) ["alohomora"; "logs"; "common.go"]
  = Some "alohomora"
  /\ Pathlib.name (mkPath "/" ["dev"; "alohomora"; "logs"; "common.go"])
     = "common.go"
  /\ should_exclude (mkPath "/" ["dev"; "alohomora"; "logs"; "common.go"])
                    (mkPath "/" ["dev"]) (mkPath "/" ["dev"]) = Some true
  /\ Legacy.should_exclude (mkPath "/" ["dev"; "alohomora"; "logs"; "common.go"])
                           (mkPath "/" ["dev"]) (mkPath "/" ["dev"]) = Some true.
Proof. repeat split; reflexivity. Qed.

(** C7, amended.  For a file below [base_path] whose project is "alohomora",
    [should_exclude] answers include exactly when the file's name is
    common.go or alohomora.go and the lowered path string does not contain
    "log"; every other file of the project is excluded.  This holds for the
    script of scripts/ and for the older one. *)
Theorem alohomora_only_designated (base_path dev_root : Path) (rel : list string) :
  let file_path := Pathlib.extend base_path rel in
  project_of file_path dev_root rel = Some "alohomora" ->
  (should_exclude file_path base_path dev_root = Some false
   <-> In (Pathlib.name file_path) ["common.go"; "alohomora.go"]
       /\ PyStr.contains "log" (PyStr.lower (Pathlib.str file_path)) = false)
  /\ (should_exclude file_path base_path dev_root = Some true
      <-> ~ (In (Pathlib.name file_path) ["common.go"; "alohomora.go"]
             /\ PyStr.contains "log" (PyStr.lower (Pathlib.str file_path)) = false))
  /\ Legacy.should_exclude file_path base_path dev_root
     = should_exclude file_path base_path dev_root.
Proof.
  intros fp Hp. unfold fp in *.
  rewrite should_exclude_under, legacy_should_exclude_under.
  cbv zeta. rewrite Hp. simpl truthy.
  unfold project_rules, Legacy.project_rules. simpl String.eqb. cbv iota.
  set (f := Pathlib.extend base_path rel) in *.
  destruct (PyStr.mem (Pathlib.name f) ["common.go"; "alohomora.go"]) eqn:M.
  - apply mem_In in M. destruct (designated_not_global f M) as [S V].
    unfold global_log. rewrite S, V, orb_false_r.
    destruct (PyStr.contains "log" _); cbn [orb negb]; repeat split;
      intuition (discriminate || congruence).
  - assert (N : ~ In (Pathlib.name f) ["common.go"; "alohomora.go"]).
    { intros H. apply mem_In in H. congruence. }
    destruct (global_log f); [|destruct (global_vsix f)]; cbn [negb];
      repeat split; intuition (discriminate || congruence).
Qed.

Lemma alohomora_only_designated_witness :
  should_exclude (mkPath "/" ["dev"; "alohomora"; "cmd"; "common.go"])
                 (mkPath "/" ["dev"]) (mkPath "/" ["dev"]) = Some false
  /\ should_exclude (mkPath "/" ["dev"; "alohomora"; "cmd"; "main.go"])
                 (mkPath "/" ["dev"]) (mkPath "/" ["dev"]) = Some true.
Proof.
  split.
  - destruct (alohomora_only_designated (mkPath "/" ["dev"]) (mkPath "/" ["dev"])
                ["alohomora"; "cmd"; "common.go"] eq_refl) as [[_ H] _].
    apply H. split; [simpl; auto | reflexivity].
  - destruct (alohomora_only_designated (mkPath "/" ["dev"]) (mkPath "/" ["dev"])
                ["alohomora"; "cmd"; "main.go"] eq_refl) as [_ [[_ H] _]].
    apply H. intros [[E|[E|[]]] _]; discriminate.
Defined.

(* ------------------------------------------------------------------ *)
(** ** The dictionary of project counters *)

Section DictFacts.

Lemma dict_get_update (k p : string) (f : stats -> stats) (d : project_dict) :
  dict_get k (dict_update p f d) =
    if String.eqb k p then
      Some (f (match dict_get p d with Some v => v | None => default_stats end))
    else dict_get k d.
Proof.
  induction d as [|[k' v] d IH]; simpl.
  - destruct (String.eqb_spec k p); reflexivity.
  - destruct (String.eqb_spec p k') as [->|Hpk]; simpl.
    + destruct (String.eqb_spec k k'); reflexivity.
    + rewrite IH.
      destruct (String.eqb_spec k k') as [->|Hkk];
        destruct (String.eqb_spec k' p); try congruence;
        destruct (String.eqb_spec k p); congruence.
Qed.

Lemma dict_keys_update (p : string) (f : stats -> stats) (d : project_dict) :
  map fst (dict_update p f d) =
    if PyStr.mem p (map fst d) then map fst d else (map fst d ++ [p])%list.
Proof.
  induction d as [|[k' v] d IH]; simpl; [reflexivity|].
  destruct (String.eqb_spec p k') as [->|Hpk]; simpl; [reflexivity|].
  rewrite IH. unfold PyStr.mem. now destruct (existsb _ _).
Qed.

Lemma mem_app_self (p : string) (l : list string) :
  PyStr.mem p (l ++ [p])%list = true.
Proof.
  unfold PyStr.mem. rewrite existsb_app. simpl.
  now rewrite String.eqb_refl, orb_true_r.
Qed.

Lemma sum_files_update (p : string) (f : stats -> stats) (a : nat) (d : project_dict) :
  (forall s, files (f s) = files s + a) ->
  sum_files (dict_update p f d) = sum_files d + a.
Proof.
  intros Hf. unfold sum_files.
  induction d as [|[k' v] d IH]; simpl.
  - rewrite Hf. simpl. lia.
  - destruct (String.eqb p k'); simpl; [rewrite Hf | rewrite IH]; lia.
Qed.

Lemma sum_lines_update (p : string) (f : stats -> stats) (a : nat) (d : project_dict) :
  (forall s, lines (f s) = lines s + a) ->
  sum_lines (dict_update p f d) = sum_lines d + a.
Proof.
  intros Hf. unfold sum_lines.
  induction d as [|[k' v] d IH]; simpl.
  - rewrite Hf. simpl. lia.
  - destruct (String.eqb p k'); simpl; [rewrite Hf | rewrite IH]; lia.
Qed.

(** Lines 157 to 160 move one project's counters, by one file and the
    file's lines. *)
Lemma tally_bumps (project : string) (n : nat) (st : state) :
  bumps project 1 n (project_stats st) (project_stats (tally project n st)).
Proof.
  intros k. unfold tally; simpl.
  rewrite !dict_get_update, String.eqb_refl.
  destruct (String.eqb k project); [|reflexivity].
  destruct (dict_get project (project_stats st)) as [[a b]|]; reflexivity.
Qed.

Lemma tally_keys (project : string) (n : nat) (st : state) :
  map fst (project_stats (tally project n st)) =
    if PyStr.mem project (map fst (project_stats st))
    then map fst (project_stats st)
    else (map fst (project_stats st) ++ [project])%list.
Proof.
  unfold tally; simpl. rewrite !dict_keys_update.
  destruct (PyStr.mem project (map fst (project_stats st))) eqn:E.
  - now rewrite E.
  - now rewrite mem_app_self.
Qed.

Lemma tally_sums (project : string) (n : nat) (st : state) :
  sum_files (project_stats (tally project n st)) = sum_files (project_stats st) + 1
  /\ sum_lines (project_stats (tally project n st)) = sum_lines (project_stats st) + n.
Proof.
  unfold tally; simpl. split.
  - rewrite (sum_files_update _ _ 0) by (intros; simpl; lia).
    rewrite (sum_files_update _ _ 1) by (intros; simpl; lia). lia.
  - rewrite (sum_lines_update _ _ n) by (intros; simpl; lia).
    rewrite (sum_lines_update _ _ 0) by (intros; simpl; lia). lia.
Qed.

Lemma first_seen_snoc (ks : list string) (k : string) :
  first_seen (ks ++ [k])%list =
    if PyStr.mem k (first_seen ks) then first_seen ks
    else (first_seen ks ++ [k])%list.
Proof. unfold first_seen. now rewrite fold_left_app. Qed.

End DictFacts.

(* ------------------------------------------------------------------ *)
(** ** Loops *)

Section LoopFacts.

Context {A S B : Type}.
Variable body : S -> A -> option S.
Variable yield : A -> list B.
Variable I : list B -> S -> Prop.
Variable P : A -> Prop.

Hypothesis step : forall pre x s,
  P x -> I pre s -> exists s', body s x = Some s' /\ I (pre ++ yield x)%list s'.

(** A loop whose body never raises on the elements it is given runs to its
    end, and an invariant indexed by what has been consumed follows it. *)
Lemma for_each_hist (xs : list A) :
  forall pre s, Forall P xs -> I pre s ->
  exists s', for_each body xs s = Some s' /\ I (pre ++ flat_map yield xs)%list s'.
Proof.
  induction xs as [|x xs IH]; intros pre s HP HI; simpl.
  - exists s. now rewrite app_nil_r.
  - inversion HP as [|? ? Hx Hxs]; subst.
    destruct (step pre x s Hx HI) as [s1 [E1 I1]]. rewrite E1.
    destruct (IH (pre ++ yield x)%list s1 Hxs I1) as [s2 [E2 I2]].
    exists s2. split; [assumption|]. now rewrite app_assoc.
Qed.

End LoopFacts.

(* ------------------------------------------------------------------ *)
(** ** The traversal *)

Section TraversalFacts.

Variables base_path dev_root : Path.
Variable show_exclusions : bool.

Lemma flat_map_singleton {X Y : Type} (g : X -> Y) (l : list X) :
  flat_map (fun x => [g x]) l = map g l.
Proof. induction l; simpl; congruence. Qed.

Lemma included_snoc (ws : list walked) (w : walked) :
  included base_path dev_root (ws ++ [w])%list =
    if is_included base_path dev_root w
    then (included base_path dev_root ws ++ [w])%list
    else included base_path dev_root ws.
Proof.
  unfold included. rewrite filter_app. simpl.
  destruct (is_included _ _ w); [reflexivity | apply app_nil_r].
Qed.

Lemma excluded_snoc (ws : list walked) (w : walked) :
  filter (is_excluded base_path dev_root) (ws ++ [w])%list =
    if is_excluded base_path dev_root w
    then (filter (is_excluded base_path dev_root) ws ++ [w])%list
    else filter (is_excluded base_path dev_root) ws.
Proof.
  rewrite filter_app. simpl.
  destruct (is_excluded _ _ w); [reflexivity | apply app_nil_r].
Qed.

Lemma expected_stats_snoc (k : string) (l : list walked) (w : walked) :
  expected_stats base_path k (l ++ [w])%list =
    if String.eqb (key_of base_path w) k then
      Some (mkStats (List.length (of_key base_path k l) + 1)
                    (list_sum (map lines_of (of_key base_path k l)) + lines_of w))
    else expected_stats base_path k l.
Proof.
  unfold expected_stats, of_key. rewrite filter_app. simpl.
  destruct (String.eqb (key_of base_path w) k).
  - destruct (filter _ l) as [|x m]; simpl.
    + do 2 f_equal. lia.
    + rewrite length_app, map_app, list_sum_app. simpl.
      do 2 f_equal; lia.
  - now rewrite app_nil_r.
Qed.

Lemma key_of_under (rel : list string) (f : file_data) :
  key_of base_path (Pathlib.extend base_path rel, f)
  = project_key (mkPath "" rel).
Proof. unfold key_of; simpl. now rewrite relative_to_extend. Qed.

(** The state of the loop does not depend on the exclusion log. *)
Lemma accounts_ext (ws : list walked) (st st' : state) :
  project_stats st' = project_stats st ->
  total_files st' = total_files st ->
  total_lines st' = total_lines st ->
  excluded_files st' = excluded_files st ->
  accounts base_path dev_root ws st -> accounts base_path dev_root ws st'.
Proof.
  intros E1 E2 E3 E4 [H1 H2 H3 H4 H5 H6 H7 H8].
  constructor; rewrite ?E1, ?E2, ?E3, ?E4; assumption.
Qed.

(** An excluded file moves the excluded-file counter and nothing else. *)
Lemma accounts_exclude (ws : list walked) (w : walked) (st : state) :
  should_exclude (fst w) base_path dev_root = Some true ->
  accounts base_path dev_root ws st -> accounts base_path dev_root (ws ++ [w])%list (exclude_file show_exclusions (fst w) st).
Proof.
  intros E [H1 H2 H3 H4 H5 H6 H7 H8].
  assert (Ei : is_included base_path dev_root w = false)
    by (unfold is_included; now rewrite E).
  assert (Ex : is_excluded base_path dev_root w = true)
    by (unfold is_excluded; now rewrite E).
  constructor; rewrite ?included_snoc, ?excluded_snoc, ?Ei, ?Ex;
    simpl; try assumption.
  - rewrite length_app. simpl. lia.
  - rewrite length_app. simpl. lia.
Qed.

(** An included file moves the totals and the counters of its key. *)
Lemma accounts_tally (ws : list walked) (w : walked) (st : state) :
  should_exclude (fst w) base_path dev_root = Some false ->
  accounts base_path dev_root ws st ->
  accounts base_path dev_root (ws ++ [w])%list (tally (key_of base_path w) (lines_of w) st).
Proof.
  intros E [H1 H2 H3 H4 H5 H6 H7 H8].
  assert (Ei : is_included base_path dev_root w = true)
    by (unfold is_included; now rewrite E).
  assert (Ex : is_excluded base_path dev_root w = false)
    by (unfold is_excluded; now rewrite E).
  destruct (tally_sums (key_of base_path w) (lines_of w) st) as [Sf Sl].
  constructor; rewrite ?included_snoc, ?excluded_snoc, ?Ei, ?Ex.
  - simpl. rewrite length_app. simpl. lia.
  - simpl. rewrite map_app, list_sum_app. simpl. lia.
  - simpl. assumption.
  - intros k. rewrite (tally_bumps (key_of base_path w) (lines_of w) st k).
    rewrite expected_stats_snoc, !H4.
    rewrite (String.eqb_sym k).
    destruct (String.eqb_spec (key_of base_path w) k) as [<-|]; [|reflexivity].
    unfold expected_stats.
    destruct (of_key base_path (key_of base_path w) (included base_path dev_root ws)); reflexivity.
  - rewrite tally_keys, map_app. cbn [map]. rewrite first_seen_snoc, H5. reflexivity.
  - rewrite Sf. simpl. lia.
  - rewrite Sl. simpl. lia.
  - simpl. rewrite length_app. simpl. lia.
Qed.

(** The loop body on a file found below [base_path]: it never raises, and
    the file is accounted for on one side or the other. *)
Lemma process_file_under (ds : list string) (file : string * file_data)
  (st : state) :
  let root := Pathlib.extend base_path ds in
  let w := (Pathlib.child root (fst file), snd file) in
  exists st',
    process_file base_path dev_root show_exclusions root st file = Some st'
    /\ (should_exclude (fst w) base_path dev_root = Some true
        /\ st' = exclude_file show_exclusions (fst w) st
        \/ should_exclude (fst w) base_path dev_root = Some false
           /\ st' = tally (key_of base_path w) (lines_of w) st).
Proof.
  intros root w. unfold process_file. fold w.
  change (Pathlib.child root (fst file)) with (fst w).
  assert (Ew : fst w = Pathlib.extend base_path (ds ++ [fst file])%list)
    by (unfold w, root; simpl; apply child_extend).
  destruct (should_exclude_total base_path dev_root (ds ++ [fst file])%list)
    as [b Hb].
  assert (Hrel : Pathlib.relative_to (fst w) base_path
                 = Some (mkPath "" (ds ++ [fst file])%list))
    by (rewrite Ew; apply relative_to_extend).
  rewrite <- Ew in Hb. rewrite Hb. destruct b.
  - eexists; split; [reflexivity | left; auto].
  - unfold key_of. rewrite Hrel.
    eexists; split; [reflexivity | right; split; reflexivity].
Qed.

Lemma process_file_step (ds : list string) (ws : list walked)
  (file : string * file_data) (st : state) :
  accounts base_path dev_root ws st ->
  exists st',
    process_file base_path dev_root show_exclusions
                 (Pathlib.extend base_path ds) st file = Some st'
    /\ accounts base_path dev_root (ws ++ [(Pathlib.child (Pathlib.extend base_path ds) (fst file),
                     snd file)])%list st'.
Proof.
  intros H.
  destruct (process_file_under ds file st) as [st' [E [[V ->]|[V ->]]]];
    eexists; (split; [exact E|]).
  - now apply (accounts_exclude ws _ st).
  - now apply (accounts_tally ws _ st).
Qed.

(** One directory of the walk. *)
Lemma process_dir_step (ws : list walked) (t : triple) (st : state) :
  (exists ds, fst (fst t) = Pathlib.extend base_path ds) ->
  accounts base_path dev_root ws st ->
  exists st',
    process_dir base_path dev_root show_exclusions st t = Some st'
    /\ accounts base_path dev_root (ws ++ files_of_triple t)%list st'.
Proof.
  destruct t as [[root dirs] fs]. simpl. intros [ds ->] H.
  unfold process_dir, files_of_triple. simpl.
  set (st1 := if show_exclusions then _ else st).
  assert (H1 : accounts base_path dev_root ws st1).
  { unfold st1. destruct show_exclusions; [|assumption].
    eapply accounts_ext; [..|exact H]; reflexivity. }
  destruct (for_each_hist
           (process_file base_path dev_root show_exclusions
                         (Pathlib.extend base_path ds))
           (fun f => [(Pathlib.child (Pathlib.extend base_path ds) (fst f), snd f)])
           (fun pre s => accounts base_path dev_root (ws ++ pre)%list s)
           (fun _ => True)) with (xs := fs) (pre := @nil walked) (s := st1)
    as [st' [E A]].
  - intros pre x s _ Hs. rewrite app_assoc. now apply process_file_step.
  - apply Forall_forall. auto.
  - now rewrite app_nil_r.
  - exists st'. split; [exact E|].
    simpl in A. now rewrite flat_map_singleton in A.
Qed.

(** Every directory the walk yields lies below the directory it started at. *)
Lemma walk_entry_roots (keep : string -> bool) (e : entry) :
  forall ds,
    Forall (fun t : triple => exists ds', fst (fst t) = Pathlib.extend base_path ds')
           (walk_entry keep (Pathlib.extend base_path ds) e).
Proof.
  induction e as [n d | n ch IH] using entry_ind2; intros ds; simpl.
  - constructor.
  - destruct (keep n); [|constructor].
    constructor.
    + simpl. exists (ds ++ [n])%list. apply child_extend.
    + apply Forall_flat_map. rewrite child_extend.
      eapply Forall_impl; [|exact IH]. intros e He. apply He.
Qed.

Lemma os_walk_roots (keep : string -> bool) (tree : list entry) :
  Forall (fun t : triple => exists ds', fst (fst t) = Pathlib.extend base_path ds')
         (os_walk keep base_path tree).
Proof.
  unfold os_walk. constructor.
  - simpl. exists []. symmetry. apply extend_nil.
  - apply Forall_flat_map. apply Forall_forall. intros e _.
    rewrite <- (extend_nil base_path) at 1. apply walk_entry_roots.
Qed.

Lemma accounts_init : accounts base_path dev_root [] init_state.
Proof. constructor; intros; reflexivity. Qed.

End TraversalFacts.

(** The traversal runs to its end on every tree, and its final state is the
    account of the files it walked. *)
Lemma traverse_accounts (base_path : Path) (dev_root : option Path)
  (show_exclusions : bool) (tree : list entry) :
  exists st,
    traverse base_path dev_root show_exclusions tree = Some st
    /\ accounts base_path
                (match dev_root with Some d => d | None => base_path end)
                (walked_files base_path tree) st.
Proof.
  unfold traverse, walked_files.
  set (dev := match dev_root with Some d => d | None => base_path end).
  destruct (for_each_hist (process_dir base_path dev show_exclusions)
           files_of_triple
           (fun pre s => accounts base_path dev pre s)
           (fun t => exists ds, fst (fst t) = Pathlib.extend base_path ds))
    with (xs := os_walk keep_dir base_path tree) (pre := @nil walked)
         (s := init_state) as [st [E A]].
  - intros pre t s Ht Hs. now apply process_dir_step.
  - apply os_walk_roots.
  - apply accounts_init.
  - exists st. split; [exact E | exact A].
Qed.

(* ------------------------------------------------------------------ *)
(** ** The sort of the report *)

Section SortFacts.

Lemma insert_desc_perm (x : string * stats) (l : list (string * stats)) :
  Permutation (insert_desc x l) (x :: l).
Proof.
  induction l as [|y l IH]; simpl; [reflexivity|].
  destruct (sort_key x <? sort_key y); [|reflexivity].
  rewrite IH. apply perm_swap.
Qed.

Lemma sorted_desc_perm (l : list (string * stats)) :
  Permutation (sorted_desc l) l.
Proof.
  induction l as [|x l IH]; simpl; [reflexivity|].
  rewrite insert_desc_perm. now constructor.
Qed.

Lemma insert_desc_sorted (x : string * stats) (l : list (string * stats)) :
  StronglySorted ge_lines l -> StronglySorted ge_lines (insert_desc x l).
Proof.
  induction 1 as [|y l Hs IH Hy]; simpl.
  - repeat constructor.
  - destruct (Nat.ltb_spec (sort_key x) (sort_key y)) as [Hlt|Hge].
    + constructor; [assumption|].
      eapply Permutation_Forall; [symmetry; apply insert_desc_perm|].
      constructor; [unfold ge_lines; lia | assumption].
    + constructor; [now constructor|].
      constructor; [exact Hge|].
      eapply Forall_impl; [|exact Hy].
      intros z Hz. unfold ge_lines in *. lia.
Qed.

Lemma sorted_desc_sorted (l : list (string * stats)) :
  StronglySorted ge_lines (sorted_desc l).
Proof.
  induction l as [|x l IH]; simpl; [constructor|].
  now apply insert_desc_sorted.
Qed.

(** An inserted row only moves past rows of strictly more lines. *)
Lemma insert_desc_stable (n : nat) (x : string * stats) (l : list (string * stats)) :
  with_lines n (insert_desc x l) = with_lines n (x :: l).
Proof.
  unfold with_lines.
  induction l as [|y l IH]; [reflexivity|].
  cbn [insert_desc].
  destruct (Nat.ltb_spec (sort_key x) (sort_key y)) as [Hlt|Hge]; [|reflexivity].
  cbn [filter] in *. rewrite IH.
  destruct (Nat.eqb_spec (sort_key x) n); destruct (Nat.eqb_spec (sort_key y) n);
    try reflexivity; lia.
Qed.

Lemma sorted_desc_stable (n : nat) (l : list (string * stats)) :
  with_lines n (sorted_desc l) = with_lines n l.
Proof.
  induction l as [|x l IH]; [reflexivity|].
  cbn [sorted_desc fold_right]. fold (sorted_desc l).
  rewrite insert_desc_stable. unfold with_lines in *. cbn [filter].
  now rewrite IH.
Qed.

Lemma sum_files_perm (l l' : project_dict) :
  Permutation l l' -> sum_files l = sum_files l'.
Proof.
  unfold sum_files. induction 1; simpl; lia.
Qed.

Lemma sum_lines_perm (l l' : project_dict) :
  Permutation l l' -> sum_lines l = sum_lines l'.
Proof.
  unfold sum_lines. induction 1; simpl; lia.
Qed.

End SortFacts.

(* ------------------------------------------------------------------ *)
(** ** The claims about the traversal *)

Section WalkedFacts.

Variable base_path : Path.

(** Every file the walk hands over lies below [base_path], at least one
    segment down. *)
Lemma walked_under (tree : list entry) :
  Forall (fun w : walked =>
            exists rel, rel <> [] /\ fst w = Pathlib.extend base_path rel)
         (walked_files base_path tree).
Proof.
  unfold walked_files. apply Forall_flat_map.
  eapply Forall_impl; [|apply os_walk_roots].
  intros [[root dirs] fs] [ds E]. simpl in E. subst root.
  unfold files_of_triple. simpl.
  apply Forall_forall. intros w Hw. apply in_map_iff in Hw.
  destruct Hw as [f [<- _]]. simpl.
  exists (ds ++ [fst f])%list. split; [|apply child_extend].
  intros H. apply app_eq_nil in H. destruct H; discriminate.
Qed.

Lemma try_encodings_unreadable (f : file_data) (encs : list encoding) :
  (forall e, In e encs -> forall n, f e <> Lines n) ->
  try_encodings encs f = 0.
Proof.
  induction encs as [|e encs IH]; intros H; simpl; [reflexivity|].
  destruct (f e) eqn:E.
  - exfalso. apply (H e (or_introl eq_refl) n E).
  - apply IH. intros e' He'. apply H. now right.
  - apply IH. intros e' He'. apply H. now right.
  - reflexivity.
Qed.

Lemma included_none (dev : Path) (ws : list walked) :
  Forall (fun w : walked => should_exclude (fst w) base_path dev = Some true) ws ->
  included base_path dev ws = [].
Proof.
  unfold included.
  induction 1 as [|w ws Hw _ IH]; simpl; [reflexivity|].
  unfold is_included at 1. now rewrite Hw.
Qed.

End WalkedFacts.

(** Every file the walk hands over gets one verdict from the filter: it is
    included or excluded, never both and never neither. *)
Lemma walked_one_verdict (base_path dev : Path) (tree : list entry) :
  Forall (fun w : walked =>
            is_included base_path dev w = negb (is_excluded base_path dev w))
         (walked_files base_path tree).
Proof.
  eapply Forall_impl; [|apply (walked_under base_path tree)].
  intros w [rel [_ Hw]]. unfold is_included, is_excluded. rewrite Hw.
  destruct (should_exclude_total base_path dev rel) as [b ->].
  destruct b; reflexivity.
Qed.

(** C1.  A traversal by [count_project_lines] always runs to its end; in its
    final state, as in the report it prints, the file counters of the
    projects add up to [total_files] and their line counters to
    [total_lines].  The final state is the exact account of the files the
    traversal encountered and the filter included: [total_files] is their
    number, [total_lines] the sum of their line counts, and the counters of
    each project are the number and the line sum of those of them whose
    first path segment below [base_path] is that project, a project without
    such a file having no entry; the rows of the report are these entries.
    In the loop, each included file moves the counters of exactly one
    project, by one file and by the file's line count, and the totals by the
    same amounts. *)
Theorem project_sums_equal_totals (base_path : Path) (dev_root : option Path)
  (show_exclusions : bool) (tree : list entry) :
  (exists st r,
      traverse base_path dev_root show_exclusions tree = Some st
      /\ count_project_lines base_path dev_root show_exclusions tree = Some r
      /\ sum_files (project_stats st) = total_files st
      /\ sum_lines (project_stats st) = total_lines st
      /\ sum_files (rows r) = fst (total_row r)
      /\ sum_lines (rows r) = snd (total_row r)
      /\ Permutation (rows r) (project_stats st)
      /\ total_row r = (total_files st, total_lines st)
      /\ total_files st
         = List.length
             (included base_path
                (match dev_root with Some d => d | None => base_path end)
                (walked_files base_path tree))
      /\ total_lines st
         = list_sum
             (map lines_of
                (included base_path
                   (match dev_root with Some d => d | None => base_path end)
                   (walked_files base_path tree)))
      /\ (forall k,
            dict_get k (project_stats st)
            = expected_stats base_path k
                (included base_path
                   (match dev_root with Some d => d | None => base_path end)
                   (walked_files base_path tree))))
  /\ (forall (dev : Path) (ds : list string) (file : string * file_data)
             (st : state),
        let root := Pathlib.extend base_path ds in
        let n := count_lines_in_file (snd file) in
        should_exclude (Pathlib.child root (fst file)) base_path dev = Some false ->
        exists project,
          process_file base_path dev show_exclusions root st file
            = Some (tally project n st)
          /\ bumps project 1 n (project_stats st)
                   (project_stats (tally project n st))
          /\ total_files (tally project n st) = total_files st + 1
          /\ total_lines (tally project n st) = total_lines st + n).
Proof.
  split.
  - destruct (traverse_accounts base_path dev_root show_exclusions tree)
      as [st [E A]].
    exists st, (report_of st). unfold count_project_lines. rewrite E.
    destruct A as [H1 H2 H3 H4 H5 H6 H7 H8]. simpl.
    rewrite (sum_files_perm _ _ (sorted_desc_perm (project_stats st))).
    rewrite (sum_lines_perm _ _ (sorted_desc_perm (project_stats st))).
    repeat split; try assumption; try reflexivity.
    apply sorted_desc_perm.
  - intros dev ds file st root n Hincl.
    destruct (process_file_under base_path dev show_exclusions ds file st)
      as [st' [E [[V _]|[_ ->]]]].
    + simpl in V. fold root in V. congruence.
    + eexists. split; [exact E|]. split; [apply tally_bumps|].
      split; reflexivity.
Qed.

Lemma project_sums_equal_totals_witness :
  exists project,
    process_file (mkPath "/" ["dev"]) (mkPath "/" ["dev"]) false
                 (Pathlib.extend (mkPath "/" ["dev"]) ["projA"]) init_state
                 ("a.txt", text_file 3)
    = Some (tally project 3 init_state).
Proof.
  destruct (project_sums_equal_totals (mkPath "/" ["dev"]) None false spec_tree)
    as [_ H].
  destruct (H (mkPath "/" ["dev"]) ["projA"] ("a.txt", text_file 3) init_state
              eq_refl) as [p [E _]].
  exists p. exact E.
Defined.

(** C4.  The traversal runs to its end, and every file it encounters below
    [base_path] is classified exactly once.  The filter gives each
    encountered file one verdict, included or excluded; at the end
    [total_files] is the number of encountered files it included,
    [excluded_files] the number it excluded, so the two add up to the number
    of files encountered, and the counters of each project count exactly the
    included files under that key.  In the loop, the body counts a file on
    exactly one side: either the excluded-file counter grows by one and
    nothing else moves, or [total_files] and the counters of one project
    grow by one file and the excluded-file counter stays. *)
Theorem every_file_classified_once (base_path : Path) (dev_root : option Path)
  (show_exclusions : bool) (tree : list entry) :
  (exists st,
      traverse base_path dev_root show_exclusions tree = Some st
      /\ total_files st + excluded_files st
         = List.length (walked_files base_path tree)
      /\ total_files st
         = List.length
             (filter (is_included base_path
                        (match dev_root with Some d => d | None => base_path end))
                     (walked_files base_path tree))
      /\ excluded_files st
         = List.length
             (filter (is_excluded base_path
                        (match dev_root with Some d => d | None => base_path end))
                     (walked_files base_path tree))
      /\ Forall (fun w : walked =>
                   is_included base_path
                     (match dev_root with Some d => d | None => base_path end) w
                   = negb (is_excluded base_path
                             (match dev_root with Some d => d | None => base_path end)
                             w))
                (walked_files base_path tree)
      /\ (forall k,
            dict_get k (project_stats st)
            = expected_stats base_path k
                (filter (is_included base_path
                           (match dev_root with Some d => d | None => base_path end))
                        (walked_files base_path tree))))
  /\ (forall (dev : Path) (ds : list string) (file : string * file_data)
             (st : state),
        exists st',
          process_file base_path dev show_exclusions
                       (Pathlib.extend base_path ds) st file = Some st'
          /\ (excluded_files st' = excluded_files st + 1
              /\ total_files st' = total_files st
              /\ total_lines st' = total_lines st
              /\ project_stats st' = project_stats st
              \/
              excluded_files st' = excluded_files st
              /\ total_files st' = total_files st + 1
              /\ total_lines st' = total_lines st + count_lines_in_file (snd file)
              /\ exists project,
                   bumps project 1 (count_lines_in_file (snd file))
                         (project_stats st) (project_stats st'))).
Proof.
  split.
  - destruct (traverse_accounts base_path dev_root show_exclusions tree)
      as [st [E A]].
    exists st. split; [exact E|].
    split; [apply (acc_all _ _ _ _ A)|].
    split; [apply (acc_files _ _ _ _ A)|].
    split; [apply (acc_excluded _ _ _ _ A)|].
    split; [apply walked_one_verdict|].
    apply (acc_get _ _ _ _ A).
  - intros dev ds file st.
    destruct (process_file_under base_path dev show_exclusions ds file st)
      as [st' [E [[_ ->]|[_ ->]]]]; eexists; (split; [exact E|]).
    + left. repeat split; reflexivity.
    + right. repeat split; try reflexivity.
      eexists. apply tally_bumps.
Qed.

(** C5.  A file that no attempted encoding can read (every attempt raises)
    makes [count_lines_in_file] return 0.  When such a file has passed the
    exclusion filter, the loop body does not raise: it counts the file as
    included, with one more file and no more lines for its project and for
    the totals, leaves the excluded-file counter alone, and the loop goes on
    with the remaining files. *)
Theorem unreadable_file_counts_zero (f : file_data) :
  (forall e, In e encodings -> forall n, f e <> Lines n) ->
  count_lines_in_file f = 0
  /\ forall (base_path dev : Path) (show_exclusions : bool) (ds : list string)
            (name : string) (st : state) (rest : list (string * file_data)),
       let root := Pathlib.extend base_path ds in
       should_exclude (Pathlib.child root name) base_path dev = Some false ->
       exists project st',
         process_file base_path dev show_exclusions root st (name, f) = Some st'
         /\ total_files st' = total_files st + 1
         /\ total_lines st' = total_lines st
         /\ excluded_files st' = excluded_files st
         /\ bumps project 1 0 (project_stats st) (project_stats st')
         /\ for_each (process_file base_path dev show_exclusions root)
                     ((name, f) :: rest) st
            = for_each (process_file base_path dev show_exclusions root) rest st'.
Proof.
  intros Hf.
  assert (Z : count_lines_in_file f = 0)
    by (now apply try_encodings_unreadable).
  split; [exact Z|].
  intros base_path dev show_exclusions ds name st rest root Hincl.
  destruct (process_file_under base_path dev show_exclusions ds (name, f) st)
    as [st' [E [[V _]|[_ ->]]]].
  - simpl in V. fold root in V. congruence.
  - fold root in E. unfold lines_of in *. simpl snd in *. rewrite Z in *.
    eexists. eexists. split; [exact E|].
    repeat split.
    + simpl. lia.
    + apply tally_bumps.
    + cbn [for_each]. now rewrite E.
Qed.

Lemma unreadable_file_counts_zero_witness :
  count_lines_in_file unreadable_file = 0
  /\ exists project st',
       process_file (mkPath "/" ["dev"]) (mkPath "/" ["dev"]) false
                    (Pathlib.extend (mkPath "/" ["dev"]) ["projA"]) init_state
                    ("a.bin", unreadable_file) = Some st'
       /\ total_files st' = 1 /\ total_lines st' = 0 /\ excluded_files st' = 0
       /\ dict_get project (project_stats st') = Some (mkStats 1 0).
Proof.
  assert (U : forall e, In e encodings -> forall n, unreadable_file e <> Lines n)
    by (intros e _ n H; discriminate).
  destruct (unreadable_file_counts_zero unreadable_file U) as [Z K].
  split; [exact Z|].
  destruct (K (mkPath "/" ["dev"]) (mkPath "/" ["dev"]) false ["projA"] "a.bin"
              init_state [] eq_refl) as [p [st' [E [F [L [X [B _]]]]]]].
  exists p, st'. repeat split; try assumption.
  specialize (B p). rewrite String.eqb_refl in B. exact B.
Defined.

(** C9.  The "log" test of line 31 reads the whole path string of the file,
    the part above the scanned directory included.  When the lowered string
    of [base_path] contains "log", [should_exclude] excludes every path below
    it, whatever the development root, in both scripts; the traversal then
    excludes every file it encounters and reports no included file, no line
    and no project. *)
Theorem log_in_base_excludes_everything (base_path : Path) :
  PyStr.contains "log" (PyStr.lower (Pathlib.str base_path)) = true ->
  (forall (dev : Path) (rel : list string),
      should_exclude (Pathlib.extend base_path rel) base_path dev = Some true
      /\ Legacy.should_exclude (Pathlib.extend base_path rel) base_path dev
         = Some true)
  /\ (forall (dev_root : option Path) (show_exclusions : bool)
             (tree : list entry),
        exists st r,
          traverse base_path dev_root show_exclusions tree = Some st
          /\ count_project_lines base_path dev_root show_exclusions tree = Some r
          /\ total_files st = 0 /\ total_lines st = 0
          /\ project_stats st = []
          /\ excluded_files st = List.length (walked_files base_path tree)
          /\ rows r = [] /\ total_row r = (0, 0)
          /\ excluded_count r = List.length (walked_files base_path tree)).
Proof.
  intros Hlog.
  assert (X : forall dev rel,
             should_exclude (Pathlib.extend base_path rel) base_path dev
             = Some true).
  { intros dev rel. rewrite should_exclude_under. cbv zeta.
    unfold global_log. now rewrite log_in_base_in_file. }
  split.
  - intros dev rel. split; [apply X|].
    rewrite legacy_should_exclude_under. cbv zeta.
    unfold global_log. now rewrite log_in_base_in_file.
  - intros dev_root show_exclusions tree.
    destruct (traverse_accounts base_path dev_root show_exclusions tree)
      as [st [E A]].
    set (dev := match dev_root with Some d => d | None => base_path end) in *.
    assert (N : included base_path dev (walked_files base_path tree) = []).
    { apply included_none.
      eapply Forall_impl; [|apply (walked_under base_path tree)].
      intros w [rel [_ Hw]]. rewrite Hw. apply X. }
    destruct A as [H1 H2 H3 H4 H5 H6 H7 H8].
    rewrite N in *. simpl in *.
    assert (P0 : project_stats st = [])
      by (apply map_eq_nil in H5; exact H5).
    exists st, (report_of st). unfold count_project_lines. rewrite E.
    unfold report_of. simpl. rewrite P0, H1, H2. simpl.
    repeat split; lia.
Qed.

Lemma log_in_base_excludes_everything_witness :
  should_exclude (mkPath "/" ["home"; "blog"; "projA"; "a.txt"])
                 (mkPath "/" ["home"; "blog"]) (mkPath "/" ["home"; "blog"])
  = Some true
  /\ option_map total_row
       (count_project_lines (mkPath "/" ["home"; "blog"]) None false spec_tree)
     = Some (0, 0).
Proof.
  destruct (log_in_base_excludes_everything (mkPath "/" ["home"; "blog"]) eq_refl)
    as [F T].
  split.
  - apply (F (mkPath "/" ["home"; "blog"]) ["projA"; "a.txt"]).
  - destruct (T None false spec_tree) as [st [r [_ [E [_ [_ [_ [_ [_ [R _]]]]]]]]]].
    rewrite E. simpl. now rewrite R.
Defined.

(* ------------------------------------------------------------------ *)
(** ** Files lying directly in the scanned directory *)

Section TopLevelFacts.

Variable base_path : Path.

Lemma walked_files_split (tree : list entry) :
  walked_files base_path tree =
    (map (top_file base_path) (file_entries tree)
     ++ flat_map files_of_triple (flat_map (walk_entry keep_dir base_path) tree))%list.
Proof. reflexivity. Qed.

Lemma key_of_top_file (f : string * file_data) :
  key_of base_path (top_file base_path f) = fst f.
Proof.
  unfold top_file.
  rewrite <- (extend_nil base_path) at 2. rewrite child_extend.
  now rewrite key_of_under.
Qed.

(** A file met while walking a directory entry carries the entry's name
    right after the path the walk of that entry started from. *)
Lemma walk_entry_keys (e : entry) :
  forall ds,
    Forall (fun w : walked =>
              exists more,
                fst w = Pathlib.extend base_path (ds ++ entry_name e :: more)%list)
           (flat_map files_of_triple
                     (walk_entry keep_dir (Pathlib.extend base_path ds) e)).
Proof.
  induction e as [n d | n ch IH] using entry_ind2; intros ds; simpl.
  - constructor.
  - destruct (keep_dir n); [|constructor]. simpl.
    apply Forall_app. split.
    + unfold files_of_triple. simpl. apply Forall_forall.
      intros w Hw. apply in_map_iff in Hw. destruct Hw as [f [<- _]]. simpl.
      exists [fst f]. rewrite !child_extend. now rewrite <- app_assoc.
    + apply Forall_flat_map. apply Forall_flat_map.
      rewrite child_extend.
      eapply Forall_impl; [|exact IH]. intros c Hc.
      apply Forall_flat_map.
      eapply Forall_impl; [|apply (Hc (ds ++ [n])%list)].
      intros w [more Hw]. exists (entry_name c :: more).
      rewrite Hw. now rewrite <- app_assoc.
Qed.

Lemma in_file_entries (n : string) (d : file_data) (tree : list entry) :
  In (n, d) (file_entries tree) -> In (EFile n d) tree.
Proof.
  unfold file_entries. rewrite in_flat_map.
  intros [e [He H]]. destruct e as [n' d'|n' ch]; simpl in H; [|contradiction].
  destruct H as [H|[]]. now injection H as -> ->.
Qed.

Lemma entry_name_inj (tree : list entry) (e e' : entry) :
  NoDup (map entry_name tree) -> In e tree -> In e' tree ->
  entry_name e = entry_name e' -> e = e'.
Proof.
  induction tree as [|x t IH]; intros Hnd He He' Hn; [contradiction|].
  simpl in Hnd. inversion Hnd as [|? ? Hx Ht]; subst.
  destruct He as [->|He]; destruct He' as [->|He']; auto.
  - exfalso. apply Hx. rewrite Hn. now apply in_map.
  - exfalso. apply Hx. rewrite <- Hn. now apply in_map.
Qed.

Lemma filter_none {X : Type} (p : X -> bool) (l : list X) :
  (forall x, In x l -> p x = false) -> filter p l = [].
Proof.
  induction l as [|x l IH]; intros H; simpl; [reflexivity|].
  rewrite (H x (or_introl eq_refl)). apply IH. intros y Hy. apply H. now right.
Qed.

Lemma filter_comm {X : Type} (p q : X -> bool) (l : list X) :
  filter p (filter q l) = filter q (filter p l).
Proof.
  induction l as [|x l IH]; simpl; [reflexivity|].
  destruct (p x) eqn:Ep; destruct (q x) eqn:Eq; simpl;
    rewrite ?Ep, ?Eq, IH; reflexivity.
Qed.

(** Among the files lying directly in the directory, one name is one file. *)
Lemma top_files_of_key (tree : list entry) (name : string) (f : file_data) :
  NoDup (map entry_name tree) -> In (EFile name f) tree ->
  of_key base_path name (map (top_file base_path) (file_entries tree))
  = [top_file base_path (name, f)].
Proof.
  unfold of_key.
  induction tree as [|e t IH]; intros Hnd Hin; [contradiction|].
  simpl in Hnd. inversion Hnd as [|? ? Hx Ht]; subst.
  destruct Hin as [->|Hin].
  - simpl. rewrite key_of_top_file. simpl. rewrite String.eqb_refl. f_equal.
    apply filter_none. intros w Hw. apply in_map_iff in Hw.
    destruct Hw as [[n d] [<- Hnd']]. rewrite key_of_top_file. simpl.
    apply String.eqb_neq. intros ->. apply Hx. simpl.
    apply in_file_entries in Hnd'.
    change name with (entry_name (EFile name d)). now apply in_map.
  - assert (Hne : entry_name e <> name).
    { intros <-. apply Hx.
      change (entry_name e) with (entry_name (EFile (entry_name e) f)).
      now apply in_map. }
    destruct e as [n d|n ch]; simpl in *.
    + rewrite key_of_top_file. simpl.
      destruct (String.eqb_spec n name); [congruence|]. now apply IH.
    + now apply IH.
Qed.

(** Below the subdirectories, no file has the name of a top-level file for
    its key. *)
Lemma sub_files_of_key (tree : list entry) (name : string) (f : file_data) :
  NoDup (map entry_name tree) -> In (EFile name f) tree ->
  of_key base_path name
         (flat_map files_of_triple (flat_map (walk_entry keep_dir base_path) tree))
  = [].
Proof.
  intros Hnd Hin. unfold of_key. apply filter_none.
  intros w Hw. apply in_flat_map in Hw. destruct Hw as [t [Ht Hw]].
  apply in_flat_map in Ht. destruct Ht as [e [He Ht]].
  assert (Hw' : In w (flat_map files_of_triple
                        (walk_entry keep_dir (Pathlib.extend base_path []) e))).
  { rewrite extend_nil. apply in_flat_map. eauto. }
  pose proof (walk_entry_keys e []) as K.
  rewrite Forall_forall in K. destruct (K w Hw') as [more Em].
  simpl in Em. destruct w as [p d]. simpl in Em. subst p.
  rewrite key_of_under. simpl.
  apply String.eqb_neq. intros En.
  assert (e = EFile name f) by (apply (entry_name_inj tree); auto).
  subst e. simpl in Ht. contradiction.
Qed.

End TopLevelFacts.

(** C10.  The key under which an included file is tallied is the first
    segment of its path relative to [base_path], which is never missing for
    a file of the walk, so the 'root' fallback of line 153 is not taken.
    For a file lying directly in [base_path] that key is the file's own
    name, and, the names in a directory being distinct, the file is the only
    one counted under it: the project of that name ends with one file and
    that file's lines. *)
Theorem top_level_file_is_own_project (base_path : Path)
  (dev_root : option Path) (show_exclusions : bool) (tree : list entry) :
  let dev := match dev_root with Some d => d | None => base_path end in
  (forall (name : string) (f : file_data) (st : state),
      should_exclude (Pathlib.child base_path name) base_path dev = Some false ->
      process_file base_path dev show_exclusions base_path st (name, f)
      = Some (tally name (count_lines_in_file f) st))
  /\ Forall (fun w : walked =>
               exists rel_path,
                 Pathlib.relative_to (fst w) base_path = Some rel_path
                 /\ Pathlib.parts rel_path <> []
                 /\ hd_error (Pathlib.parts rel_path) = Some (key_of base_path w))
            (walked_files base_path tree)
  /\ (forall (name : string) (f : file_data),
        NoDup (map entry_name tree) ->
        In (EFile name f) tree ->
        should_exclude (Pathlib.child base_path name) base_path dev = Some false ->
        exists st,
          traverse base_path dev_root show_exclusions tree = Some st
          /\ dict_get name (project_stats st)
             = Some (mkStats 1 (count_lines_in_file f))).
Proof.
  intros dev. split; [|split].
  - intros name f st Hincl.
    pose proof (process_file_under base_path dev show_exclusions [] (name, f) st)
      as H. cbv zeta in H. rewrite extend_nil in H.
    destruct H as [st' [E [[V _]|[_ ->]]]].
    + simpl in V. congruence.
    + rewrite E. f_equal.
      change (Pathlib.child base_path (fst (name, f)), snd (name, f))
        with (top_file base_path (name, f)).
      now rewrite key_of_top_file.
  - eapply Forall_impl; [|apply walked_under].
    intros [p d] [rel [Hne E]]. simpl in E. subst p.
    exists (mkPath "" rel). simpl. rewrite relative_to_extend.
    rewrite key_of_under. unfold project_key. rewrite parts_relative.
    destruct rel; [congruence|]. repeat split. discriminate.
  - intros name f Hnd Hin Hincl.
    destruct (traverse_accounts base_path dev_root show_exclusions tree)
      as [st [E A]].
    exists st. split; [exact E|].
    rewrite (acc_get _ _ _ _ A). fold dev.
    unfold expected_stats, included, of_key.
    rewrite filter_comm. fold (of_key base_path name (walked_files base_path tree)).
    rewrite walked_files_split. unfold of_key at 1. rewrite filter_app.
    fold (of_key base_path name (map (top_file base_path) (file_entries tree))).
    fold (of_key base_path name
            (flat_map files_of_triple
                      (flat_map (walk_entry keep_dir base_path) tree))).
    rewrite (top_files_of_key base_path tree name f Hnd Hin).
    rewrite (sub_files_of_key base_path tree name f Hnd Hin).
    simpl. unfold is_included. simpl. rewrite Hincl. simpl.
    unfold lines_of. simpl. now rewrite Nat.add_0_r.
Qed.

Lemma top_level_file_is_own_project_witness :
  let base := mkPath "/" ["dev"] in
  let tree := [EFile "notes.txt" (text_file 4);
               EDir "projA" [EFile "a.txt" (text_file 3)]] in
  process_file base base false base init_state ("notes.txt", text_file 4)
  = Some (tally "notes.txt" 4 init_state)
  /\ exists st,
       traverse base None false tree = Some st
       /\ dict_get "notes.txt" (project_stats st) = Some (mkStats 1 4).
Proof.
  intros base tree.
  destruct (top_level_file_is_own_project base None false tree) as [H1 [_ H3]].
  split.
  - apply (H1 "notes.txt" (text_file 4) init_state). reflexivity.
  - apply (H3 "notes.txt" (text_file 4)).
    + simpl. repeat constructor; simpl; intuition discriminate.
    + simpl. auto.
    + reflexivity.
Defined.

(* ------------------------------------------------------------------ *)
(** ** The report *)

(** C3, as stated, fails on its second half: two listings of the same
    directory, holding the same two projects of one line each, are reported
    in two different orders, the second of which is not by ascending name. *)
Lemma tie_order_follows_discovery :
  Permutation tie_tree_ab tie_tree_ba
  /\ option_map rows
       (count_project_lines (mkPath "/" ["dev"]) None false tie_tree_ab)
     = Some [("a", mkStats 1 1); ("b", mkStats 1 1)]
  /\ option_map rows
       (count_project_lines (mkPath "/" ["dev"]) None false tie_tree_ba)
     = Some [("b", mkStats 1 1); ("a", mkStats 1 1)].
Proof.
  split; [apply perm_swap|]. split; reflexivity.
Qed.

(** C3, amended.  The rows of the report are the entries of [project_stats]
    in descending order of line count, and rows of equal line count stand in
    the order they have in [project_stats], which is the order in which the
    traversal first tallied a file for each project. *)
Theorem report_rows_sorted_stable (base_path : Path) (dev_root : option Path)
  (show_exclusions : bool) (tree : list entry) :
  exists st r,
    traverse base_path dev_root show_exclusions tree = Some st
    /\ count_project_lines base_path dev_root show_exclusions tree = Some r
    /\ Permutation (rows r) (project_stats st)
    /\ StronglySorted ge_lines (rows r)
    /\ (forall n, with_lines n (rows r) = with_lines n (project_stats st))
    /\ map fst (project_stats st)
       = first_seen
           (map (key_of base_path)
                (included base_path
                          (match dev_root with Some d => d | None => base_path end)
                          (walked_files base_path tree))).
Proof.
  destruct (traverse_accounts base_path dev_root show_exclusions tree)
    as [st [E A]].
  exists st, (report_of st). unfold count_project_lines. rewrite E. simpl.
  split; [reflexivity|]. split; [reflexivity|].
  split; [apply sorted_desc_perm|].
  split; [apply sorted_desc_sorted|].
  split; [intros n; apply sorted_desc_stable|].
  apply (acc_keys _ _ _ _ A).
Qed.

(* ------------------------------------------------------------------ *)
(** ** The command line *)

(** C8, as stated, fails: the configuration is read before the arguments,
    and when it cannot be read the run ends with code 1 although the
    argument names a regular file. *)
Lemma single_file_needs_config :
  target_of ["/srv/a.txt"] = Some "/srv/a.txt"
  /\ single_file_fs (resolve "/" "/srv/a.txt") = RegularFile (text_file 3)
  /\ main (inl "No such file or directory") "/opt/tool/config.json"
          ["/srv/a.txt"] "/" single_file_fs
     = [Print "Error: Could not read devRoot from config.json: No such file or directory";
        Print "Expected config at: /opt/tool/config.json";
        Exit 1].
Proof. repeat split. Qed.

(** C8, amended.  When [config.json] has given the development root and the
    path argument names a regular file, the run prints the header naming the
    file, then that file's line count, and exits with code 0; it does not
    call [count_project_lines]. *)
Theorem single_file_counts_and_exits (dev_root : Path) (config_path : string)
  (argv : list string) (cwd : string) (fs : Path -> fnode)
  (target_path : string) (data : file_data) :
  target_of argv = Some target_path ->
  target_path <> "" ->
  fs (resolve cwd target_path) = RegularFile data ->
  main (inr dev_root) config_path argv cwd fs
  = [Print (newline ++ "Counting single file: "
              ++ Pathlib.str (resolve cwd target_path));
     Print ("Lines: " ++ format_commas (count_lines_in_file data));
     Exit 0]
  /\ forall b d s,
       ~ In (Call_count_project_lines b d s)
            (main (inr dev_root) config_path argv cwd fs).
Proof.
  intros Ht Hne Hfs.
  assert (E : main (inr dev_root) config_path argv cwd fs
              = [Print (newline ++ "Counting single file: "
                          ++ Pathlib.str (resolve cwd target_path));
                 Print ("Lines: " ++ format_commas (count_lines_in_file data));
                 Exit 0]).
  { unfold main. rewrite Ht. simpl truthy.
    destruct (String.eqb_spec target_path ""); [contradiction|].
    rewrite Hfs. reflexivity. }
  split; [exact E|].
  intros b d s H. rewrite E in H.
  destruct H as [H|[H|[H|[]]]]; discriminate.
Qed.

Lemma single_file_counts_and_exits_witness :
  main (inr (mkPath "/" ["dev"])) "/opt/tool/config.json"
       ["--show-exclusions"; "a.txt"] "/srv"
       (fun _ => RegularFile (text_file 4321))
  = [Print (newline ++ "Counting single file: /srv/a.txt");
     Print "Lines: 4,321";
     Exit 0].
Proof.
  apply (single_file_counts_and_exits (mkPath "/" ["dev"]) "/opt/tool/config.json"
           ["--show-exclusions"; "a.txt"] "/srv"
           (fun _ => RegularFile (text_file 4321)) "a.txt" (text_file 4321)).
  - reflexivity.
  - discriminate.
  - reflexivity.
Defined.

(* ------------------------------------------------------------------ *)
(** * Further properties of the scripts *)

(** ** More of the exclusion filter *)

Section MoreFilterFacts.

Lemma contains_app_r (n a b : string) :
  PyStr.contains n b = true -> PyStr.contains n (a ++ b) = true.
Proof.
  intros H. induction a as [|c a IH]; [exact H|].
  change (String c a ++ b) with (String c (a ++ b)).
  cbn [PyStr.contains]. rewrite IH. apply orb_true_r.
Qed.

Lemma join_in (sep s : string) (ss : list string) :
  In s ss -> exists a b, PyStr.join sep ss = a ++ s ++ b.
Proof.
  induction ss as [|x ss IH]; intros Hin; [contradiction|].
  destruct ss as [|y ss].
  - destruct Hin as [->|[]]. exists "", "". simpl. now rewrite append_nil_r.
  - change (PyStr.join sep (x :: y :: ss))
      with (x ++ sep ++ PyStr.join sep (y :: ss)).
    destruct Hin as [->|Hin].
    + exists "", (sep ++ PyStr.join sep (y :: ss)). reflexivity.
    + destruct (IH Hin) as [a [b E]]. rewrite E.
      exists (x ++ sep ++ a), b. now rewrite !append_assoc.
Qed.

(** A word found in one segment of a path is found in the path's string. *)
Lemma segment_in_str (n s : string) (p : Path) :
  In s (segs p) ->
  PyStr.contains n (PyStr.lower s) = true ->
  PyStr.contains n (PyStr.lower (Pathlib.str p)) = true.
Proof.
  intros Hin Hn. destruct p as [a ss]. simpl in Hin.
  rewrite str_segs by (intros ->; contradiction).
  destruct (join_in "/" s ss Hin) as [x [y ->]].
  rewrite !lower_app.
  apply contains_app_r, contains_app_r, contains_app_l. exact Hn.
Qed.

Lemma logs_part_is_global (base_path : Path) (rel : list string) :
  PyStr.mem "logs" rel = true ->
  global_log (Pathlib.extend base_path rel) = true.
Proof.
  intros H. apply mem_In in H. unfold global_log. apply orb_true_iff. left.
  apply (segment_in_str "log" "logs"); [|reflexivity].
  unfold Pathlib.extend. simpl. apply in_or_app. now right.
Qed.

Lemma extend_extend (p : Path) (l r : list string) :
  Pathlib.extend (Pathlib.extend p l) r = Pathlib.extend p (l ++ r)%list.
Proof. unfold Pathlib.extend; simpl. now rewrite app_assoc. Qed.

Lemma rules_agree (p : string) (fp : Path) (parts : list string) :
  ~ In p changed_keys ->
  Legacy.project_rules p fp parts = project_rules p fp parts.
Proof.
  intros H. unfold Legacy.project_rules, project_rules.
  repeat match goal with
  | |- context [String.eqb p ?k] =>
      destruct (String.eqb_spec p k) as [->|_];
        [first [reflexivity | exfalso; apply H; simpl; tauto]|]
  end.
  reflexivity.
Qed.

End MoreFilterFacts.

(** X1.  A file with the suffix ".vsix" is excluded whatever its project, by
    both scripts. *)
Theorem vsix_always_excluded (base_path dev_root : Path) (rel : list string) :
  Pathlib.suffix (Pathlib.extend base_path rel) = ".vsix" ->
  should_exclude (Pathlib.extend base_path rel) base_path dev_root = Some true
  /\ Legacy.should_exclude (Pathlib.extend base_path rel) base_path dev_root
     = Some true.
Proof.
  intros H. rewrite should_exclude_under, legacy_should_exclude_under. cbv zeta.
  unfold global_vsix. rewrite H. simpl.
  destruct (global_log _); split; reflexivity.
Qed.

Lemma vsix_always_excluded_witness :
  should_exclude (mkPath "/" ["dev"; "projA"; "dist"; "tool-1.0.vsix"])
                 (mkPath "/" ["dev"]) (mkPath "/" ["dev"]) = Some true.
Proof.
  apply (vsix_always_excluded (mkPath "/" ["dev"]) (mkPath "/" ["dev"])
           ["projA"; "dist"; "tool-1.0.vsix"]).
  reflexivity.
Defined.

(** X2.  No file of the project "e911" is ever included, by either script. *)
Theorem e911_all_excluded (base_path dev_root : Path) (rel : list string) :
  project_of (Pathlib.extend base_path rel) dev_root rel = Some "e911" ->
  should_exclude (Pathlib.extend base_path rel) base_path dev_root = Some true
  /\ Legacy.should_exclude (Pathlib.extend base_path rel) base_path dev_root
     = Some true.
Proof.
  intros H. rewrite should_exclude_under, legacy_should_exclude_under. cbv zeta.
  rewrite H. simpl.
  destruct (global_log _); [|destruct (global_vsix _)]; split; reflexivity.
Qed.

Lemma e911_all_excluded_witness :
  should_exclude (mkPath "/" ["dev"; "e911"; "src"; "main.py"])
                 (mkPath "/" ["dev"]) (mkPath "/" ["dev"]) = Some true.
Proof.
  apply (e911_all_excluded (mkPath "/" ["dev"]) (mkPath "/" ["dev"])
           ["e911"; "src"; "main.py"]).
  reflexivity.
Defined.

(** X3.  For the project "meraki-api" the test ['logs' in parts] never
    decides: a path with a segment "logs" is already excluded by the global
    "log" test.  The verdict is to exclude exactly when a global exclusion
    applies or a segment below [base_path] is "backups" or "config". *)
Theorem meraki_logs_test_subsumed (base_path dev_root : Path) (rel : list string) :
  let file_path := Pathlib.extend base_path rel in
  project_of file_path dev_root rel = Some "meraki-api" ->
  should_exclude file_path base_path dev_root
  = Some (global_log file_path || global_vsix file_path
          || PyStr.mem "backups" rel || PyStr.mem "config" rel)
  /\ Legacy.should_exclude file_path base_path dev_root
     = should_exclude file_path base_path dev_root.
Proof.
  intros fp H. unfold fp in *.
  rewrite should_exclude_under, legacy_should_exclude_under. cbv zeta.
  rewrite H. simpl truthy.
  unfold project_rules, Legacy.project_rules. simpl String.eqb. cbv iota.
  destruct (global_log (Pathlib.extend base_path rel)) eqn:G;
    [split; reflexivity|].
  destruct (global_vsix (Pathlib.extend base_path rel)); [split; reflexivity|].
  destruct (PyStr.mem "logs" rel) eqn:L.
  - apply (logs_part_is_global base_path) in L. congruence.
  - simpl. rewrite orb_false_r. split; reflexivity.
Qed.

Lemma meraki_logs_test_subsumed_witness :
  should_exclude (mkPath "/" ["dev"; "meraki-api"; "config"; "orgs.json"])
                 (mkPath "/" ["dev"]) (mkPath "/" ["dev"]) = Some true.
Proof.
  destruct (meraki_logs_test_subsumed (mkPath "/" ["dev"]) (mkPath "/" ["dev"])
              ["meraki-api"; "config"; "orgs.json"] eq_refl) as [E _].
  etransitivity; [exact E | reflexivity].
Defined.

(** X4.  Which project's rules a file falls under.  When the development
    root is the scanned directory, it is the file's aggregation key.  When
    the scanned directory lies inside a project of the development root,
    every file of the scan falls under that one project's rules, though the
    files are aggregated by their first segment below the scanned
    directory. *)
Theorem rule_project_of_scan (dev_root : Path) (rel : list string) :
  project_of (Pathlib.extend dev_root rel) dev_root rel = hd_error rel
  /\ (forall f, rel <> [] ->
        hd_error rel = Some (key_of dev_root (Pathlib.extend dev_root rel, f)))
  /\ (forall (project : string) (more : list string),
        let base_path := Pathlib.extend dev_root (project :: more) in
        project_of (Pathlib.extend base_path rel) dev_root rel = Some project).
Proof.
  split; [|split].
  - unfold project_of. now rewrite relative_to_extend.
  - intros f Hne. rewrite key_of_under. unfold project_key.
    rewrite parts_relative. destruct rel; [congruence | reflexivity].
  - intros project more base_path. unfold base_path, project_of.
    now rewrite extend_extend, relative_to_extend.
Qed.

Lemma rule_project_of_scan_witness :
  project_of (mkPath "/" ["dev"; "e911"; "docs"; "guide"; "intro.md"])
             (mkPath "/" ["dev"]) ["guide"; "intro.md"] = Some "e911"
  /\ hd_error ["projA"; "a.txt"]
     = Some (key_of (mkPath "/" ["dev"])
                    (mkPath "/" ["dev"; "projA"; "a.txt"], text_file 3)).
Proof.
  split.
  - destruct (rule_project_of_scan (mkPath "/" ["dev"]) ["guide"; "intro.md"])
      as [_ [_ H]].
    exact (H "e911" ["docs"]).
  - destruct (rule_project_of_scan (mkPath "/" ["dev"]) ["projA"; "a.txt"])
      as [_ [H _]].
    apply (H (text_file 3)). discriminate.
Defined.

(** X5.  The two scripts give the same verdict on every file whose project
    is none of the keys on which their rule tables differ. *)
Theorem scripts_agree_on_unchanged_keys (base_path dev_root : Path)
  (rel : list string) :
  (forall p, project_of (Pathlib.extend base_path rel) dev_root rel = Some p ->
             ~ In p changed_keys) ->
  Legacy.should_exclude (Pathlib.extend base_path rel) base_path dev_root
  = should_exclude (Pathlib.extend base_path rel) base_path dev_root.
Proof.
  intros H. rewrite should_exclude_under, legacy_should_exclude_under. cbv zeta.
  destruct (global_log _); [reflexivity|].
  destruct (global_vsix _); [reflexivity|].
  destruct (project_of _ dev_root rel) as [p|]; simpl; [|reflexivity].
  destruct (String.eqb p ""); [reflexivity|].
  now rewrite rules_agree by auto.
Qed.

Lemma scripts_agree_on_unchanged_keys_witness :
  Legacy.should_exclude (mkPath "/" ["dev"; "defender"; "alerts.csv"])
                        (mkPath "/" ["dev"]) (mkPath "/" ["dev"])
  = should_exclude (mkPath "/" ["dev"; "defender"; "alerts.csv"])
                   (mkPath "/" ["dev"]) (mkPath "/" ["dev"]).
Proof.
  apply (scripts_agree_on_unchanged_keys (mkPath "/" ["dev"]) (mkPath "/" ["dev"])
           ["defender"; "alerts.csv"]).
  intros p H. vm_compute in H. injection H as <-.
  simpl. intros [H|[H|[H|[H|[H|[]]]]]]; discriminate.
Defined.

(* ------------------------------------------------------------------ *)
(** ** More of count_lines_in_file *)

Section ReadFacts.

Variable f : file_data.

Lemma try_encodings_skip (pre rest : list encoding) :
  forallb (fun e => skippable (f e)) pre = true ->
  try_encodings (pre ++ rest) f = try_encodings rest f.
Proof.
  induction pre as [|e pre IH]; simpl; [reflexivity|].
  intros H. apply andb_true_iff in H. destruct H as [He Hpre].
  destruct (f e); try discriminate; auto.
Qed.

Lemma try_encodings_nonzero (encs : list encoding) :
  try_encodings encs f <> 0 ->
  exists pre e post,
    encs = (pre ++ e :: post)%list
    /\ forallb (fun e' => skippable (f e')) pre = true
    /\ f e = Lines (try_encodings encs f).
Proof.
  induction encs as [|e encs IH]; simpl; [congruence|].
  destruct (f e) eqn:E; intros H.
  - exists [], e, encs. simpl. auto.
  - destruct (IH H) as [pre [e' [post [-> [Hs Hl]]]]].
    exists (e :: pre), e', post. simpl. rewrite E. auto.
  - destruct (IH H) as [pre [e' [post [-> [Hs Hl]]]]].
    exists (e :: pre), e', post. simpl. rewrite E. auto.
  - congruence.
Qed.

End ReadFacts.

(** X6.  [count_lines_in_file] answers with the first encoding that does
    not raise [UnicodeDecodeError] or [PermissionError]: the line count if
    that attempt reads the file, 0 if it raises anything else (the later
    encodings are then not tried).  A count other than 0 is always the line
    count under one of the three encodings, every earlier one having
    failed. *)
Theorem count_lines_first_decisive (f : file_data) :
  (forall pre e post,
      encodings = (pre ++ e :: post)%list ->
      forallb (fun e' => skippable (f e')) pre = true ->
      (forall n, f e = Lines n -> count_lines_in_file f = n)
      /\ (f e = OtherException -> count_lines_in_file f = 0))
  /\ (count_lines_in_file f <> 0 ->
      exists pre e post,
        encodings = (pre ++ e :: post)%list
        /\ forallb (fun e' => skippable (f e')) pre = true
        /\ f e = Lines (count_lines_in_file f)).
Proof.
  split.
  - intros pre e post E Hpre. unfold count_lines_in_file. rewrite E.
    rewrite try_encodings_skip by assumption. simpl.
    split; [intros n H | intros H]; now rewrite H.
  - apply try_encodings_nonzero.
Qed.

Lemma count_lines_first_decisive_witness :
  count_lines_in_file (latin_file 7) = 7.
Proof.
  destruct (count_lines_first_decisive (latin_file 7)) as [H _].
  destruct (H [utf_8] latin_1 [cp1252] eq_refl eq_refl) as [H1 _].
  apply H1. reflexivity.
Defined.

(* ------------------------------------------------------------------ *)
(** ** More of the traversal: what the walk reaches *)

Section PruningFacts.

Variable base_path : Path.

Lemma flat_map_flat_map {X Y Z : Type} (g : X -> list Y) (h : Y -> list Z)
  (l : list X) :
  flat_map h (flat_map g l) = flat_map (fun x => flat_map h (g x)) l.
Proof.
  induction l as [|x l IH]; simpl; [reflexivity|].
  now rewrite flat_map_app, IH.
Qed.

Lemma filter_flat_map {X Y : Type} (p : Y -> bool) (g : X -> list Y) (l : list X) :
  filter p (flat_map g l) = flat_map (fun x => filter p (g x)) l.
Proof.
  induction l as [|x l IH]; simpl; [reflexivity|].
  now rewrite filter_app, IH.
Qed.

Lemma map_flat_map {X Y Z : Type} (h : Y -> Z) (g : X -> list Y) (l : list X) :
  map h (flat_map g l) = flat_map (fun x => map h (g x)) l.
Proof.
  induction l as [|x l IH]; simpl; [reflexivity|].
  now rewrite map_app, IH.
Qed.

Lemma flat_map_ext_Forall {X Y : Type} (g h : X -> list Y) (l : list X) :
  Forall (fun x => g x = h x) l -> flat_map g l = flat_map h l.
Proof. induction 1; simpl; congruence. Qed.

Lemma filter_all {X : Type} (p : X -> bool) (l : list X) :
  (forall x, In x l -> p x = true) -> filter p l = l.
Proof.
  induction l as [|x l IH]; intros H; simpl; [reflexivity|].
  rewrite (H x (or_introl eq_refl)). f_equal. apply IH.
  intros y Hy. apply H. now right.
Qed.

(** The files below a directory entry carry the entry's name on their way. *)
Lemma entry_files_prefix (e : entry) :
  forall ds x, In x (entry_files ds e) ->
               exists more, fst x = (ds ++ entry_name e :: more)%list.
Proof.
  induction e as [n d | n ch IH] using entry_ind2; intros ds x Hx; simpl in *.
  - contradiction.
  - apply in_app_or in Hx. destruct Hx as [Hx|Hx].
    + apply in_map_iff in Hx. destruct Hx as [f [<- _]]. simpl.
      exists []. reflexivity.
    + apply in_flat_map in Hx. destruct Hx as [c [Hc Hx]].
      rewrite Forall_forall in IH.
      destruct (IH c Hc _ _ Hx) as [more E].
      exists (entry_name c :: more). rewrite E. now rewrite <- app_assoc.
Qed.

(** The walk of a directory entry hands over the files below it that no
    pruned directory hides. *)
Lemma walk_entry_files (e : entry) :
  forall ds,
    forallb keep_dir ds = true ->
    flat_map files_of_triple
             (walk_entry keep_dir (Pathlib.extend base_path ds) e)
    = map (to_walked base_path) (filter reachable (entry_files ds e)).
Proof.
  induction e as [n d | n ch IH] using entry_ind2; intros ds Hds.
  - reflexivity.
  - cbn [walk_entry]. destruct (keep_dir n) eqn:K.
    + assert (Hds' : forallb keep_dir (ds ++ [n]) = true)
        by (rewrite forallb_app; simpl; now rewrite Hds, K).
      cbn [flat_map entry_files].
      rewrite filter_app, map_app. f_equal.
      * unfold files_of_triple. simpl.
        rewrite filter_all.
        -- rewrite map_map. apply map_ext. intros f.
           unfold to_walked. simpl. now rewrite !child_extend, <- app_assoc.
        -- intros x Hx. apply in_map_iff in Hx. destruct Hx as [f [<- _]].
           exact Hds'.
      * rewrite flat_map_flat_map, filter_flat_map, map_flat_map.
        rewrite child_extend.
        apply flat_map_ext_Forall.
        eapply Forall_impl; [|exact IH]. intros c Hc. now apply Hc.
    + simpl. rewrite filter_none; [reflexivity|].
      intros x Hx.
      destruct (entry_files_prefix (EDir n ch) ds x Hx) as [more E].
      unfold reachable. rewrite E. simpl.
      rewrite forallb_app. simpl. rewrite K. simpl. apply andb_false_r.
Qed.

End PruningFacts.

(** X7.  The files the traversal encounters are exactly the files of the
    tree that no hidden directory and no [node_modules] directory lies
    above, in top-down order.  A directory that is pruned hides everything
    below it; a hidden file in a directory that is walked is encountered
    like any other. *)
Theorem walk_reaches_unpruned_files (base_path : Path) (tree : list entry) :
  walked_files base_path tree
  = map (to_walked base_path) (filter reachable (all_files tree)).
Proof.
  rewrite walked_files_split. unfold all_files.
  rewrite filter_app, map_app. f_equal.
  - rewrite filter_all by (intros x Hx; apply in_map_iff in Hx;
                           destruct Hx as [f [<- _]]; reflexivity).
    rewrite map_map. apply map_ext. intros f. reflexivity.
  - rewrite flat_map_flat_map, filter_flat_map, map_flat_map.
    apply flat_map_ext_Forall. apply Forall_forall. intros e _.
    pose proof (walk_entry_files base_path e [] eq_refl) as H.
    rewrite extend_nil in H. exact H.
Qed.

(* ------------------------------------------------------------------ *)
(** ** More of the traversal: the exclusion log *)

Section LogFacts.

Variables base_path dev : Path.

Lemma for_each_sim {A S T : Type} (b1 : S -> A -> option S)
  (b2 : T -> A -> option T) (R : S -> T -> Prop) :
  (forall s t x, R s t -> option_rel R (b1 s x) (b2 t x)) ->
  forall xs s t, R s t -> option_rel R (for_each b1 xs s) (for_each b2 xs t).
Proof.
  intros Hstep. induction xs as [|x xs IH]; intros s t HR; simpl; [exact HR|].
  specialize (Hstep s t x HR).
  destruct (b1 s x) as [s'|]; destruct (b2 t x) as [t'|]; simpl in Hstep;
    try contradiction; auto.
Qed.

Lemma process_file_log_only (root : Path) (file : string * file_data)
  (s0 s1 : state) :
  log_only s0 s1 ->
  option_rel log_only
             (process_file base_path dev false root s0 file)
             (process_file base_path dev true root s1 file).
Proof.
  intros [[E1 [E2 [E3 E4]]] E0]. unfold process_file.
  destruct (should_exclude _ base_path dev) as [[|]|]; simpl; [| |exact I].
  - repeat split; simpl; congruence.
  - destruct (Pathlib.relative_to _ base_path); simpl.
    + repeat split; simpl; congruence.
    + repeat split; assumption.
Qed.

Lemma process_dir_log_only (t : triple) (s0 s1 : state) :
  log_only s0 s1 ->
  option_rel log_only
             (process_dir base_path dev false s0 t)
             (process_dir base_path dev true s1 t).
Proof.
  intros H. destruct t as [[root dirs] fs]. unfold process_dir.
  apply for_each_sim.
  - intros s t x. apply process_file_log_only.
  - destruct H as [[E1 [E2 [E3 E4]]] E0]. repeat split; simpl; assumption.
Qed.

(** A directory name is logged when, and only when, it was dropped. *)
Lemma dropped_not_kept (d : string) (dirs : list string) :
  In d dirs -> PyStr.mem d (filter keep_dir dirs) = false -> keep_dir d = false.
Proof.
  intros Hin Hm. destruct (keep_dir d) eqn:K; [|reflexivity].
  assert (M : PyStr.mem d (filter keep_dir dirs) = true).
  { apply mem_In. apply filter_In. auto. }
  congruence.
Qed.

Lemma name_child (root : Path) (d : string) :
  Pathlib.name (Pathlib.child root d) = d.
Proof. unfold Pathlib.name, Pathlib.child. simpl. apply last_last. Qed.

End LogFacts.

(** The loops of the traversal carry any invariant that the three ways of
    changing the state carry. *)
Lemma traverse_hist (base_path dev : Path) (show_exclusions : bool)
  (I : list walked -> state -> Prop) :
  I [] init_state ->
  (forall ws w st, I ws st ->
     should_exclude (fst w) base_path dev = Some true ->
     I (ws ++ [w])%list (exclude_file show_exclusions (fst w) st)) ->
  (forall ws w st, I ws st ->
     should_exclude (fst w) base_path dev = Some false ->
     I (ws ++ [w])%list (tally (key_of base_path w) (lines_of w) st)) ->
  (forall ws st root dirs, I ws st ->
     I ws (track_excluded_dirs root dirs (filter keep_dir dirs) st)) ->
  forall tree,
  exists st,
    for_each (process_dir base_path dev show_exclusions)
             (os_walk keep_dir base_path tree) init_state = Some st
    /\ I (walked_files base_path tree) st.
Proof.
  intros Hinit Hexcl Htally Hdirs tree. unfold walked_files.
  destruct (for_each_hist (process_dir base_path dev show_exclusions)
              files_of_triple I
              (fun t => exists ds, fst (fst t) = Pathlib.extend base_path ds))
    with (xs := os_walk keep_dir base_path tree) (pre := @nil walked)
         (s := init_state) as [st [E A]].
  - intros pre [[root dirs] fs] s [ds Hds] Hs. simpl in Hds. subst root.
    unfold process_dir, files_of_triple. simpl.
    set (s1 := if show_exclusions then _ else s).
    assert (H1 : I pre s1)
      by (unfold s1; destruct show_exclusions; auto).
    destruct (for_each_hist
                (process_file base_path dev show_exclusions
                              (Pathlib.extend base_path ds))
                (fun f => [(Pathlib.child (Pathlib.extend base_path ds) (fst f),
                            snd f)])
                (fun done s' => I (pre ++ done)%list s')
                (fun _ => True)) with (xs := fs) (pre := @nil walked) (s := s1)
      as [s2 [E2 A2]].
    + intros done x s' _ Hs'. rewrite app_assoc.
      destruct (process_file_under base_path dev show_exclusions ds x s')
        as [s'' [E [[V ->]|[V ->]]]]; eexists; (split; [exact E|]).
      * now apply (Hexcl (pre ++ done)%list _ s').
      * now apply (Htally (pre ++ done)%list _ s').
    + apply Forall_forall. auto.
    + now rewrite app_nil_r.
    + exists s2. split; [exact E2|].
      simpl in A2. now rewrite flat_map_singleton in A2.
  - apply os_walk_roots.
  - exact Hinit.
  - exists st. split; [exact E | exact A].
Qed.

(** X8.  The flag [--show-exclusions] changes the exclusion log and nothing
    else: with and without it the traversal ends with the same project
    counters, totals and excluded-file count, hence the same rows in the
    report; without it the log stays empty. *)
Theorem show_exclusions_only_logs (base_path : Path) (dev_root : option Path)
  (tree : list entry) :
  exists r0 r1,
    count_project_lines base_path dev_root false tree = Some r0
    /\ count_project_lines base_path dev_root true tree = Some r1
    /\ rows r0 = rows r1
    /\ total_row r0 = total_row r1
    /\ excluded_count r0 = excluded_count r1
    /\ exclusion_log r0 = [].
Proof.
  destruct (traverse_accounts base_path dev_root false tree) as [s0 [E0 _]].
  destruct (traverse_accounts base_path dev_root true tree) as [s1 [E1 _]].
  assert (R : option_rel (log_only)
                         (traverse base_path dev_root false tree)
                         (traverse base_path dev_root true tree)).
  { unfold traverse. apply for_each_sim.
    - intros s t x. apply process_dir_log_only.
    - repeat split. }
  rewrite E0, E1 in R. simpl in R. destruct R as [[H1 [H2 [H3 H4]]] H0].
  exists (report_of s0), (report_of s1).
  unfold count_project_lines. rewrite E0, E1. simpl.
  repeat split; congruence.
Qed.

(** What the traversal leaves in the exclusion log. *)
Lemma traverse_log (base_path : Path) (dev_root : option Path)
  (tree : list entry) :
  let dev := match dev_root with Some d => d | None => base_path end in
  exists st,
    traverse base_path dev_root true tree = Some st
    /\ filter is_file_item (excluded_items st)
       = map (fun w : walked => (ItemFile, fst w))
             (filter (is_excluded base_path dev) (walked_files base_path tree))
    /\ List.length (filter is_file_item (excluded_items st)) = excluded_files st
    /\ Forall (fun i => keep_dir (Pathlib.name (snd i)) = false)
              (filter is_dir_item (excluded_items st)).
Proof.
  intros dev.
  destruct (traverse_accounts base_path dev_root true tree) as [st [E A]].
  destruct (traverse_hist base_path dev true
              (fun ws s =>
                 filter is_file_item (excluded_items s)
                 = map (fun w : walked => (ItemFile, fst w))
                       (filter (is_excluded base_path dev) ws)
                 /\ Forall (fun i => keep_dir (Pathlib.name (snd i)) = false)
                           (filter is_dir_item (excluded_items s))))
    with (tree := tree) as [st' [E' [F D]]].
  - split; [reflexivity | constructor].
  - intros ws w s [F D] V. simpl.
    assert (X : is_excluded base_path dev w = true)
      by (unfold is_excluded; now rewrite V).
    rewrite !filter_app. simpl. rewrite X, map_app, F, app_nil_r. auto.
  - intros ws w s [F D] V. simpl.
    assert (X : is_excluded base_path dev w = false)
      by (unfold is_excluded; now rewrite V).
    rewrite filter_app. simpl. rewrite X, app_nil_r. auto.
  - intros ws s root dirs [F D]. simpl. rewrite !filter_app. split.
    + rewrite F. rewrite (filter_none is_file_item); [apply app_nil_r|].
      intros i Hi. apply in_map_iff in Hi. now destruct Hi as [d [<- _]].
    + apply Forall_app. split; [exact D|].
      apply Forall_forall. intros i Hi. apply filter_In in Hi.
      destruct Hi as [Hi _]. apply in_map_iff in Hi.
      destruct Hi as [d [<- Hd]]. simpl. rewrite name_child.
      apply filter_In in Hd. destruct Hd as [Hd Hm].
      apply (dropped_not_kept d dirs Hd).
      now destruct (PyStr.mem d (filter keep_dir dirs)).
  - unfold traverse in E. fold dev in E. rewrite E in E'. injection E' as <-.
    exists st. split; [unfold traverse; exact E|].
    split; [exact F|]. split; [|exact D].
    rewrite F, length_map. symmetry. apply (acc_excluded _ _ _ _ A).
Qed.

(** X9.  With [--show-exclusions] the file entries of the exclusion log
    are the excluded files, each once and in the order of the walk, so their
    number is the excluded-file count of the report; the directory entries
    are directories whose name is hidden or [node_modules]. *)
Theorem exclusion_log_accounts (base_path : Path) (dev_root : option Path)
  (tree : list entry) :
  let dev := match dev_root with Some d => d | None => base_path end in
  exists st,
    traverse base_path dev_root true tree = Some st
    /\ filter is_file_item (excluded_items st)
       = map (fun w : walked => (ItemFile, fst w))
             (filter (is_excluded base_path dev) (walked_files base_path tree))
    /\ List.length (filter is_file_item (excluded_items st)) = excluded_files st
    /\ Forall (fun i => keep_dir (Pathlib.name (snd i)) = false)
              (filter is_dir_item (excluded_items st)).
Proof. exact (traverse_log base_path dev_root tree). Qed.

(* ------------------------------------------------------------------ *)
(** ** More of the report: what a row says *)

Section RowFacts.

Lemma fold_seen_NoDup (l : list string) :
  forall acc, NoDup acc ->
    NoDup (fold_left (fun acc k => if PyStr.mem k acc then acc
                                   else (acc ++ [k])%list) l acc).
Proof.
  induction l as [|k l IH]; intros acc H; simpl; [exact H|].
  apply IH. destruct (PyStr.mem k acc) eqn:M; [exact H|].
  apply NoDup_app; [exact H | repeat constructor; auto |].
  intros x Hx [<-|[]]. apply mem_In in Hx. congruence.
Qed.

Lemma fold_seen_In (l : list string) :
  forall acc k,
    In k (fold_left (fun acc k => if PyStr.mem k acc then acc
                                  else (acc ++ [k])%list) l acc) ->
    In k acc \/ In k l.
Proof.
  induction l as [|x l IH]; intros acc k H; simpl in *; [auto|].
  apply IH in H. destruct H as [H|H]; [|auto].
  destruct (PyStr.mem x acc); [auto|].
  apply in_app_or in H. destruct H as [H|[<-|[]]]; auto.
Qed.

Lemma first_seen_NoDup (l : list string) : NoDup (first_seen l).
Proof. apply fold_seen_NoDup. constructor. Qed.

Lemma first_seen_In (l : list string) (k : string) :
  In k (first_seen l) -> In k l.
Proof. intros H. apply fold_seen_In in H. destruct H as [[]|H]. exact H. Qed.

(** In a dictionary the entries are what a lookup finds. *)
Lemma dict_get_In (d : project_dict) (k : string) (s : stats) :
  NoDup (map fst d) -> (In (k, s) d <-> dict_get k d = Some s).
Proof.
  induction d as [|[k' v] d IH]; intros Hnd; simpl.
  - split; [contradiction | discriminate].
  - simpl in Hnd. inversion Hnd as [|? ? Hk Hd]; subst.
    destruct (String.eqb_spec k k') as [->|Hne].
    + split.
      * intros [H|H]; [congruence|].
        exfalso. apply Hk. change k' with (fst (k', s)). now apply in_map.
      * intros H. left. congruence.
    + rewrite <- (IH Hd). split; [|auto].
      intros [H|H]; [congruence | exact H].
Qed.

Lemma expected_stats_files (base_path : Path) (k : string) (l : list walked)
  (s : stats) :
  expected_stats base_path k l = Some s -> 1 <= files s.
Proof.
  unfold expected_stats. destruct (of_key base_path k l); [discriminate|].
  intros H. injection H as <-. simpl. lia.
Qed.

Lemma filter_perm {X : Type} (p : X -> bool) (l l' : list X) :
  Permutation l l' -> Permutation (filter p l) (filter p l').
Proof.
  induction 1 as [|x l l' _ IH|x y l|l l' l'' _ IH1 _ IH2]; simpl.
  - constructor.
  - destruct (p x); [now constructor | exact IH].
  - destruct (p x); destruct (p y); try reflexivity. apply perm_swap.
  - now transitivity (filter p l').
Qed.

Lemma expected_stats_perm (base_path : Path) (k : string) (l l' : list walked) :
  Permutation l l' ->
  expected_stats base_path k l = expected_stats base_path k l'.
Proof.
  intros H. unfold expected_stats.
  assert (P : Permutation (of_key base_path k l) (of_key base_path k l'))
    by (apply filter_perm; exact H).
  destruct (of_key base_path k l) as [|x m];
    destruct (of_key base_path k l') as [|x' m'].
  - reflexivity.
  - now apply Permutation_nil_cons in P.
  - symmetry in P. now apply Permutation_nil_cons in P.
  - do 2 f_equal.
    + now apply Permutation_length.
    + apply Permutation_list_sum. now apply Permutation_map.
Qed.

Lemma walked_files_perm (base_path : Path) (tree tree' : list entry) :
  Permutation tree tree' ->
  Permutation (walked_files base_path tree) (walked_files base_path tree').
Proof.
  intros H. rewrite !walked_files_split. apply Permutation_app.
  - apply Permutation_map. unfold file_entries.
    now apply Permutation_flat_map.
  - apply Permutation_flat_map. now apply Permutation_flat_map.
Qed.

Lemma e911_excluded (base_path dev : Path) (rel : list string) :
  project_of (Pathlib.extend base_path rel) dev rel = Some "e911" ->
  should_exclude (Pathlib.extend base_path rel) base_path dev = Some true.
Proof.
  intros H. rewrite should_exclude_under. cbv zeta. rewrite H. simpl.
  destruct (global_log _); [|destruct (global_vsix _)]; reflexivity.
Qed.

(** When the filter excludes everything the walk meets, nothing is
    tallied. *)
Lemma all_excluded_state (base_path dev : Path) (ws : list walked) (st : state) :
  Forall (fun w : walked => should_exclude (fst w) base_path dev = Some true) ws ->
  accounts base_path dev ws st ->
  project_stats st = [] /\ total_files st = 0 /\ total_lines st = 0
  /\ excluded_files st = List.length ws.
Proof.
  intros H [H1 H2 H3 H4 H5 H6 H7 H8].
  rewrite (included_none base_path dev ws H) in *. simpl in *.
  apply map_eq_nil in H5. repeat split; try assumption. lia.
Qed.

End RowFacts.

(** X10.  Each project has at most one row; a row stands for a project
    exactly when the traversal included a file under that key, and it then
    shows the number of those files, which is at least one, and the sum of
    their line counts. *)
Theorem rows_are_exact_tallies (base_path : Path) (dev_root : option Path)
  (show_exclusions : bool) (tree : list entry) :
  let dev := match dev_root with Some d => d | None => base_path end in
  exists r,
    count_project_lines base_path dev_root show_exclusions tree = Some r
    /\ NoDup (map fst (rows r))
    /\ (forall k s,
          In (k, s) (rows r)
          <-> expected_stats base_path k
                (included base_path dev (walked_files base_path tree)) = Some s)
    /\ Forall (fun row => 1 <= files (snd row)) (rows r).
Proof.
  intros dev.
  destruct (traverse_accounts base_path dev_root show_exclusions tree)
    as [st [E A]]. fold dev in A.
  exists (report_of st). unfold count_project_lines. rewrite E. simpl.
  assert (Hnd : NoDup (map fst (project_stats st)))
    by (rewrite (acc_keys _ _ _ _ A); apply first_seen_NoDup).
  assert (Hin : forall k s,
             In (k, s) (sorted_desc (project_stats st))
             <-> expected_stats base_path k
                   (included base_path dev (walked_files base_path tree))
                 = Some s).
  { intros k s. rewrite <- (acc_get _ _ _ _ A), <- (dict_get_In _ _ _ Hnd).
    split; apply Permutation_in;
      [apply sorted_desc_perm | symmetry; apply sorted_desc_perm]. }
  split; [reflexivity|]. split; [|split].
  - eapply Permutation_NoDup; [|exact Hnd].
    apply Permutation_map. symmetry. apply sorted_desc_perm.
  - exact Hin.
  - apply Forall_forall. intros [k s] H. simpl.
    apply Hin in H. eapply expected_stats_files. exact H.
Qed.

(** X11.  The order in which a directory lists its entries changes neither
    the totals, nor the excluded-file count, nor the counters of any
    project: two listings of the scanned directory that are permutations of
    each other give reports with the same rows up to their order. *)
Theorem counters_independent_of_listing_order (base_path : Path)
  (dev_root : option Path) (show_exclusions : bool) (tree tree' : list entry) :
  Permutation tree tree' ->
  exists r r',
    count_project_lines base_path dev_root show_exclusions tree = Some r
    /\ count_project_lines base_path dev_root show_exclusions tree' = Some r'
    /\ total_row r = total_row r'
    /\ excluded_count r = excluded_count r'
    /\ Permutation (rows r) (rows r').
Proof.
  intros HP.
  set (dev := match dev_root with Some d => d | None => base_path end).
  destruct (traverse_accounts base_path dev_root show_exclusions tree)
    as [st [E A]].
  destruct (traverse_accounts base_path dev_root show_exclusions tree')
    as [st' [E' A']].
  fold dev in A, A'.
  pose proof (walked_files_perm base_path tree tree' HP) as W.
  assert (WI : Permutation
                 (included base_path dev (walked_files base_path tree))
                 (included base_path dev (walked_files base_path tree')))
    by (apply filter_perm; exact W).
  exists (report_of st), (report_of st').
  unfold count_project_lines. rewrite E, E'. simpl.
  split; [reflexivity|]. split; [reflexivity|]. split; [|split].
  - rewrite (acc_files _ _ _ _ A), (acc_files _ _ _ _ A').
    rewrite (acc_lines _ _ _ _ A), (acc_lines _ _ _ _ A').
    f_equal.
    + now apply Permutation_length.
    + apply Permutation_list_sum. now apply Permutation_map.
  - rewrite (acc_excluded _ _ _ _ A), (acc_excluded _ _ _ _ A').
    apply Permutation_length. now apply filter_perm.
  - rewrite sorted_desc_perm. rewrite (sorted_desc_perm (project_stats st')).
    assert (Hnd : NoDup (map fst (project_stats st)))
      by (rewrite (acc_keys _ _ _ _ A); apply first_seen_NoDup).
    assert (Hnd' : NoDup (map fst (project_stats st')))
      by (rewrite (acc_keys _ _ _ _ A'); apply first_seen_NoDup).
    apply NoDup_Permutation.
    + eapply NoDup_map_inv; exact Hnd.
    + eapply NoDup_map_inv; exact Hnd'.
    + intros [k s].
      rewrite (dict_get_In _ k s Hnd), (dict_get_In _ k s Hnd').
      rewrite (acc_get _ _ _ _ A), (acc_get _ _ _ _ A').
      now rewrite (expected_stats_perm base_path k _ _ WI).
Qed.

Lemma counters_independent_of_listing_order_witness :
  exists r r',
    count_project_lines (mkPath "/" ["dev"]) None false tie_tree_ab = Some r
    /\ count_project_lines (mkPath "/" ["dev"]) None false tie_tree_ba = Some r'
    /\ total_row r = total_row r'
    /\ excluded_count r = excluded_count r'
    /\ Permutation (rows r) (rows r').
Proof.
  apply (counters_independent_of_listing_order (mkPath "/" ["dev"]) None false
           tie_tree_ab tie_tree_ba).
  apply perm_swap.
Defined.

(** X12.  When the development root is the scanned directory, the rule
    project of a file is its aggregation key, so a project whose rule
    excludes everything never shows in the report: no row is named
    "e911". *)
Theorem e911_never_reported (base_path : Path) (show_exclusions : bool)
  (tree : list entry) :
  (exists r,
      count_project_lines base_path None show_exclusions tree = Some r
      /\ ~ In "e911" (map fst (rows r)))
  /\ (exists r,
        count_project_lines base_path (Some base_path) show_exclusions tree
        = Some r
        /\ ~ In "e911" (map fst (rows r))).
Proof.
  assert (G : forall dev_root,
             match dev_root with Some d => d | None => base_path end = base_path ->
             exists r,
               count_project_lines base_path dev_root show_exclusions tree = Some r
               /\ ~ In "e911" (map fst (rows r))).
  { intros dev_root Hdev.
    destruct (traverse_accounts base_path dev_root show_exclusions tree)
      as [st [E A]]. rewrite Hdev in A.
    exists (report_of st). unfold count_project_lines. rewrite E. simpl.
    split; [reflexivity|]. intros H.
    apply (Permutation_in _ (Permutation_map fst
                               (sorted_desc_perm (project_stats st)))) in H.
    rewrite (acc_keys _ _ _ _ A) in H. apply first_seen_In in H.
    apply in_map_iff in H. destruct H as [w [Hk Hw]].
    apply filter_In in Hw. destruct Hw as [Hw Hi].
    pose proof (walked_under base_path tree) as U.
    rewrite Forall_forall in U. destruct (U w Hw) as [rel [Hne Hrel]].
    destruct w as [p f]. simpl in Hrel. subst p.
    rewrite key_of_under in Hk. unfold project_key in Hk.
    rewrite parts_relative in Hk.
    destruct rel as [|x rel]; [congruence|]. subst x.
    unfold is_included in Hi. simpl in Hi.
    rewrite e911_excluded in Hi; [discriminate|].
    unfold project_of. now rewrite relative_to_extend. }
  split; apply G; reflexivity.
Qed.

(** X13.  Scanning a directory that lies inside the project "e911" of the
    development root puts every file of the scan under that project's rule:
    every file met is excluded and the report has no row. *)
Theorem scan_inside_e911_reports_nothing (dev_root : Path) (more : list string)
  (show_exclusions : bool) (tree : list entry) :
  let base_path := Pathlib.extend dev_root ("e911" :: more) in
  exists r,
    count_project_lines base_path (Some dev_root) show_exclusions tree = Some r
    /\ rows r = []
    /\ total_row r = (0, 0)
    /\ excluded_count r = List.length (walked_files base_path tree).
Proof.
  intros base_path.
  destruct (traverse_accounts base_path (Some dev_root) show_exclusions tree)
    as [st [E A]].
  destruct (all_excluded_state base_path dev_root
              (walked_files base_path tree) st) as [P [F [L X]]];
    [|exact A|].
  - eapply Forall_impl; [|apply (walked_under base_path tree)].
    intros w [rel [_ Hw]]. rewrite Hw. apply e911_excluded.
    unfold base_path, project_of.
    now rewrite extend_extend, relative_to_extend.
  - exists (report_of st). unfold count_project_lines. rewrite E.
    unfold report_of. simpl. rewrite P, F, L, X. auto.
Qed.

(* ------------------------------------------------------------------ *)
(** ** More of the command line *)

Section FormatFacts.

Lemma strip_commas_list (l : list ascii) :
  strip_commas (string_of_list_ascii l)
  = string_of_list_ascii (filter not_comma l).
Proof.
  induction l as [|c l IH]; simpl; [reflexivity|].
  unfold not_comma at 1. destruct (Ascii.eqb c ","); simpl; congruence.
Qed.

Lemma group3_strip (l : list ascii) :
  Forall (fun c => not_comma c = true) l ->
  forall k, filter not_comma (group3 l k) = l.
Proof.
  induction 1 as [|c l Hc _ IH]; intros k; simpl; [reflexivity|].
  destruct k; simpl; rewrite Hc, IH; reflexivity.
Qed.

Lemma digits_not_comma (d : Decimal.uint) :
  Forall (fun c => not_comma c = true)
         (list_ascii_of_string (NilEmpty.string_of_uint d)).
Proof. induction d; simpl; constructor; auto. Qed.

(** Where [group3] puts the commas: after [k] characters, then after every
    three more. *)
Lemma group3_commas (l : list ascii) :
  Forall (fun c => not_comma c = true) l ->
  forall k i,
    nth_error (group3 l k) i = Some ","%char <-> 
    i < List.length (group3 l k) /\ exists q, i = k + 4 * q.
Proof.
  induction 1 as [|c l Hc _ IH]; intros k i.
  - simpl. destruct i; simpl; split; try discriminate; intros [H _]; lia.
  - assert (Nc : c <> ","%char) by (intros ->; discriminate).
    destruct k as [|k]; cbn [group3].
    + destruct i as [|[|i]]; cbn [nth_error List.length].
      * split; [intros _; split; [lia | exists 0; lia] | reflexivity].
      * split; [intros H; congruence | intros [_ [q Hq]]; lia].
      * rewrite IH. split.
        -- intros [Hl [q ->]]. split; [lia | exists (S q); lia].
        -- intros [Hl [q Hq]]. split; [lia|].
           destruct q as [|q]; [lia|]. exists q. lia.
    + destruct i as [|i]; cbn [nth_error List.length].
      * split; [intros H; congruence | intros [_ [q Hq]]; lia].
      * rewrite IH. split.
        -- intros [Hl [q ->]]. split; [lia | exists q; lia].
        -- intros [Hl [q Hq]]. split; [lia | exists q; lia].
Qed.

Lemma last_cons_nonempty {X : Type} (c d : X) (l : list X) :
  l <> [] -> last (c :: l) d = last l d.
Proof. destruct l; [congruence | reflexivity]. Qed.

Lemma group3_nonempty (l : list ascii) (k : nat) :
  l <> [] -> group3 l k <> [].
Proof. destruct l; [congruence|]. destruct k; discriminate. Qed.

Lemma group3_last (l : list ascii) :
  Forall (fun c => not_comma c = true) l ->
  forall k, l <> [] -> not_comma (last (group3 l k) "0"%char) = true.
Proof.
  induction 1 as [|c l Hc Hl IH]; intros k Hne; [congruence|].
  destruct l as [|c' l].
  - destruct k; simpl; exact Hc.
  - assert (N : forall k', group3 (c' :: l) k' <> [])
      by (intros k'; apply group3_nonempty; discriminate).
    destruct k as [|k].
    + change (group3 (c :: c' :: l) 0)
        with (","%char :: c :: group3 (c' :: l) 2).
      rewrite last_cons_nonempty by discriminate.
      rewrite last_cons_nonempty by apply N.
      apply IH. discriminate.
    + change (group3 (c :: c' :: l) (S k)) with (c :: group3 (c' :: l) k).
      rewrite last_cons_nonempty by apply N.
      apply IH. discriminate.
Qed.

Lemma remove_first_app (x : string) (pre post : list string) :
  ~ In x pre -> remove_first x (pre ++ x :: post)%list = (pre ++ post)%list.
Proof.
  induction pre as [|a pre IH]; intros H; simpl.
  - now rewrite String.eqb_refl.
  - destruct (String.eqb_spec a x) as [->|_]; [elim H; now left|].
    f_equal. apply IH. intros Hin. apply H. now right.
Qed.

End FormatFacts.

(** X14.  [f"{n:,}"] loses nothing and groups by three: with the commas
    taken out, the text is the decimal numeral of [n] and reads back as [n];
    counted from the right, the commas stand exactly at the positions 3, 7,
    11 and so on; the text does not start with a comma. *)
Theorem format_commas_round_trip (n : nat) :
  strip_commas (format_commas n) = NilEmpty.string_of_uint (Nat.to_uint n)
  /\ option_map Nat.of_uint
       (NilEmpty.uint_of_string (strip_commas (format_commas n))) = Some n
  /\ (forall i,
        nth_error (rev (list_ascii_of_string (format_commas n))) i
        = Some ","%char
        <-> i < String.length (format_commas n) /\ exists q, i = 3 + 4 * q)
  /\ String.get 0 (format_commas n) <> Some ","%char.
Proof.
  unfold format_commas.
  set (ds := list_ascii_of_string (NilEmpty.string_of_uint (Nat.to_uint n))).
  assert (D : Forall (fun c => not_comma c = true) (rev ds))
    by (apply Forall_rev, digits_not_comma).
  assert (S1 : strip_commas
                 (string_of_list_ascii (rev (group3 (rev ds) 3)))
               = NilEmpty.string_of_uint (Nat.to_uint n)).
  { rewrite strip_commas_list, filter_rev, group3_strip by exact D.
    rewrite rev_involutive. apply string_of_list_ascii_of_string. }
  split; [exact S1|]. split; [|split].
  - rewrite S1, NilEmpty.usu. simpl. now rewrite DecimalNat.Unsigned.of_to.
  - intros i. rewrite list_ascii_of_string_of_list_ascii, rev_involutive.
    rewrite (group3_commas (rev ds) D 3 i).
    assert (L : String.length (string_of_list_ascii (rev (group3 (rev ds) 3)))
                = List.length (group3 (rev ds) 3)).
    { rewrite <- (length_rev (group3 (rev ds) 3)).
      generalize (rev (group3 (rev ds) 3)).
      induction l; simpl; congruence. }
    rewrite L. reflexivity.
  - assert (Hne : rev ds <> []).
    { intros H. apply (f_equal (@rev ascii)) in H.
      rewrite rev_involutive in H. simpl in H. unfold ds in H.
      apply (f_equal string_of_list_ascii) in H.
      rewrite string_of_list_ascii_of_string in H. simpl in H.
      pose proof (NilEmpty.usu (Nat.to_uint n)) as U.
      rewrite H in U. simpl in U. injection U as U.
      pose proof (DecimalNat.Unsigned.of_to n) as V.
      rewrite <- U in V. simpl in V. subst n.
      vm_compute in U. discriminate U. }
    pose proof (group3_last (rev ds) D 3 Hne) as G.
    destruct (group3 (rev ds) 3) as [|c l] eqn:E.
    { destruct (rev ds); [congruence | discriminate]. }
    remember (last (c :: l) "0"%char) as z eqn:Ez.
    assert (X : exists t, rev (c :: l) = z :: t).
    { subst z. destruct (@exists_last _ (c :: l)) as [l' [a Ea]]; [discriminate|].
      rewrite Ea, rev_app_distr, last_last. simpl. eauto. }
    destruct X as [t Ex]. rewrite Ex. cbn [string_of_list_ascii String.get].
    intros H. injection H as H. rewrite H in G. discriminate.
Qed.

(** X15.  The flag [--show-exclusions] may stand anywhere among the
    arguments: its first occurrence is taken out, wherever it is, and the
    first argument left is the target, so the run is the same as with the
    flag in front.  A second occurrence is not taken out and counts as an
    ordinary argument. *)
Theorem flag_position_irrelevant (config : config_result) (config_path : string)
  (pre post : list string) (cwd : string) (fs : Path -> fnode) :
  ~ In "--show-exclusions" pre ->
  show_flag (pre ++ "--show-exclusions" :: post)%list = true
  /\ target_of (pre ++ "--show-exclusions" :: post)%list
     = hd_error (pre ++ post)%list
  /\ main config config_path (pre ++ "--show-exclusions" :: post)%list cwd fs
     = main config config_path ("--show-exclusions" :: pre ++ post)%list cwd fs.
Proof.
  intros H.
  assert (S1 : show_flag (pre ++ "--show-exclusions" :: post)%list = true).
  { apply mem_In. apply in_or_app. right. now left. }
  assert (T1 : target_of (pre ++ "--show-exclusions" :: post)%list
               = hd_error (pre ++ post)%list).
  { unfold target_of. rewrite S1. now rewrite remove_first_app. }
  split; [exact S1|]. split; [exact T1|].
  unfold main. rewrite S1, T1. reflexivity.
Qed.

Lemma flag_position_irrelevant_witness :
  main (inr (mkPath "/" ["dev"])) "/opt/tool/config.json"
       ["a.txt"; "--show-exclusions"] "/srv" single_file_fs
  = main (inr (mkPath "/" ["dev"])) "/opt/tool/config.json"
         ["--show-exclusions"; "a.txt"] "/srv" single_file_fs.
Proof.
  apply (flag_position_irrelevant (inr (mkPath "/" ["dev"]))
           "/opt/tool/config.json" ["a.txt"] [] "/srv" single_file_fs).
  intros [H|[]]. discriminate.
Defined.

(* ------------------------------------------------------------------ *)
(** ** The listing of exclusions *)

Section ListingFacts.

Lemma string_le_trans (a b c : string) :
  string_le a b -> string_le b c -> string_le a c.
Proof.
  unfold string_le, String.leb. intros Hab Hbc.
  destruct (String.compare a b) eqn:Eab; try discriminate;
    destruct (String.compare b c) eqn:Ebc; try discriminate.
  - apply String.compare_eq_iff in Eab, Ebc. subst.
    assert (String.compare c c = Eq) as ->
      by (apply (OrderedTypeEx.String_as_OT.cmp_eq c c); reflexivity).
    reflexivity.
  - apply String.compare_eq_iff in Eab. subst. now rewrite Ebc.
  - apply String.compare_eq_iff in Ebc. subst. now rewrite Eab.
  - apply OrderedTypeEx.String_as_OT.cmp_lt in Eab, Ebc.
    pose proof (OrderedTypeEx.String_as_OT.lt_trans _ _ _ Eab Ebc) as H.
    apply OrderedTypeEx.String_as_OT.cmp_lt in H.
    unfold OrderedTypeEx.String_as_OT.cmp in H. now rewrite H.
Qed.

Lemma string_le_flip (a b : string) :
  String.leb a b = false -> string_le b a.
Proof.
  intros H. destruct (String.leb_total a b) as [H'|H']; [congruence | exact H'].
Qed.

Lemma insert_string_perm (x : string) (l : list string) :
  Permutation (insert_string x l) (x :: l).
Proof.
  induction l as [|y l IH]; simpl; [reflexivity|].
  destruct (String.leb x y); [reflexivity|].
  rewrite IH. apply perm_swap.
Qed.

Lemma sort_strings_perm (l : list string) : Permutation (sort_strings l) l.
Proof.
  induction l as [|x l IH]; simpl; [reflexivity|].
  rewrite insert_string_perm. now constructor.
Qed.

Lemma insert_string_sorted (x : string) (l : list string) :
  StronglySorted string_le l -> StronglySorted string_le (insert_string x l).
Proof.
  induction 1 as [|y l Hs IH Hy]; simpl.
  - repeat constructor.
  - destruct (String.leb x y) eqn:E.
    + constructor; [now constructor|].
      constructor; [exact E|].
      eapply Forall_impl; [|exact Hy].
      intros z Hz. now apply (string_le_trans x y z).
    + constructor; [assumption|].
      eapply Permutation_Forall; [symmetry; apply insert_string_perm|].
      constructor; [now apply string_le_flip | assumption].
Qed.

Lemma sort_strings_sorted (l : list string) :
  StronglySorted string_le (sort_strings l).
Proof.
  induction l as [|x l IH]; simpl; [constructor|].
  now apply insert_string_sorted.
Qed.

Lemma insert_group_perm (x : string * group) (l : group_dict) :
  Permutation (insert_group x l) (x :: l).
Proof.
  induction l as [|y l IH]; simpl; [reflexivity|].
  destruct (String.leb (fst x) (fst y)); [reflexivity|].
  rewrite IH. apply perm_swap.
Qed.

Lemma sort_groups_perm (d : group_dict) : Permutation (sort_groups d) d.
Proof.
  induction d as [|x d IH]; simpl; [reflexivity|].
  rewrite insert_group_perm. now constructor.
Qed.

Lemma insert_group_sorted (x : string * group) (l : group_dict) :
  StronglySorted (fun a b => string_le (fst a) (fst b)) l ->
  StronglySorted (fun a b => string_le (fst a) (fst b)) (insert_group x l).
Proof.
  induction 1 as [|y l Hs IH Hy]; simpl.
  - repeat constructor.
  - destruct (String.leb (fst x) (fst y)) eqn:E.
    + constructor; [now constructor|].
      constructor; [exact E|].
      eapply Forall_impl; [|exact Hy].
      intros z Hz. now apply (string_le_trans (fst x) (fst y) (fst z)).
    + constructor; [assumption|].
      eapply Permutation_Forall; [symmetry; apply insert_group_perm|].
      constructor; [now apply string_le_flip | assumption].
Qed.

Lemma sort_groups_sorted (d : group_dict) :
  StronglySorted (fun a b => string_le (fst a) (fst b)) (sort_groups d).
Proof.
  induction d as [|x d IH]; simpl; [constructor|].
  now apply insert_group_sorted.
Qed.

Lemma group_get_update (k p : string) (f : group -> group) (d : group_dict) :
  group_get k (group_update p f d) =
    if String.eqb k p then
      Some (f (match group_get p d with Some v => v | None => empty_group end))
    else group_get k d.
Proof.
  induction d as [|[k' v] d IH]; simpl.
  - destruct (String.eqb_spec k p); reflexivity.
  - destruct (String.eqb_spec p k') as [->|Hpk]; simpl.
    + destruct (String.eqb_spec k k'); reflexivity.
    + rewrite IH.
      destruct (String.eqb_spec k k') as [->|Hkk];
        destruct (String.eqb_spec k' p); try congruence;
        destruct (String.eqb_spec k p); congruence.
Qed.

Lemma group_keys_update (p : string) (f : group -> group) (d : group_dict) :
  map fst (group_update p f d) =
    if PyStr.mem p (map fst d) then map fst d else (map fst d ++ [p])%list.
Proof.
  induction d as [|[k' v] d IH]; simpl; [reflexivity|].
  destruct (String.eqb_spec p k') as [->|Hpk]; simpl; [reflexivity|].
  rewrite IH. unfold PyStr.mem. now destruct (existsb _ _).
Qed.

Lemma group_update_NoDup (p : string) (f : group -> group) (d : group_dict) :
  NoDup (map fst d) -> NoDup (map fst (group_update p f d)).
Proof.
  intros H. rewrite group_keys_update.
  destruct (PyStr.mem p (map fst d)) eqn:M; [exact H|].
  apply NoDup_app; [exact H | repeat constructor; auto |].
  intros x Hx [<-|[]]. apply mem_In in Hx. congruence.
Qed.

Lemma group_get_In (d : group_dict) (k : string) (g : group) :
  NoDup (map fst d) -> (In (k, g) d <-> group_get k d = Some g).
Proof.
  induction d as [|[k' v] d IH]; intros Hnd; simpl.
  - split; [contradiction | discriminate].
  - simpl in Hnd. inversion Hnd as [|? ? Hk Hd]; subst.
    destruct (String.eqb_spec k k') as [->|Hne].
    + split.
      * intros [H|H]; [congruence|].
        exfalso. apply Hk. change k' with (fst (k', g)). now apply in_map.
      * intros H. left. congruence.
    + rewrite <- (IH Hd). split; [|auto].
      intros [H|H]; [congruence | exact H].
Qed.

Variable base_path : Path.

Lemma group_of_snoc (m : list (item_type * Path)) (x : item_type * Path) :
  group_of base_path (m ++ [x])%list =
    match fst x with
    | ItemDir => mkGroup (g_dirs (group_of base_path m) ++ [rel_str base_path x])
                         (g_files (group_of base_path m))
    | ItemFile => mkGroup (g_dirs (group_of base_path m))
                          (g_files (group_of base_path m) ++ [rel_str base_path x])
    end.
Proof.
  unfold group_of. rewrite !filter_app, !map_app.
  destruct x as [[|] p]; simpl; now rewrite app_nil_r.
Qed.

Lemma expected_group_snoc (k : string) (items : list (item_type * Path))
  (x : item_type * Path) :
  expected_group base_path k (items ++ [x])%list =
    if in_group base_path k x then
      let g := match expected_group base_path k items with
               | Some g => g
               | None => empty_group
               end in
      Some (match fst x with
            | ItemDir => mkGroup (g_dirs g ++ [rel_str base_path x]) (g_files g)
            | ItemFile => mkGroup (g_dirs g) (g_files g ++ [rel_str base_path x])
            end)
    else expected_group base_path k items.
Proof.
  unfold expected_group. rewrite filter_app.
  assert (Hx : filter (in_group base_path k) [x]
               = if in_group base_path k x then [x] else [])
    by reflexivity.
  rewrite Hx. destruct (in_group base_path k x); [|now rewrite app_nil_r].
  destruct (filter (in_group base_path k) items) as [|y m].
  - destruct x as [[|] p]; reflexivity.
  - cbv zeta. cbn [app].
    change (y :: m ++ [x])%list with ((y :: m) ++ [x])%list.
    now rewrite group_of_snoc.
Qed.

(** The dictionary built from the log holds, under each key, the entries of
    that key in the order of the log. *)
Lemma exclusions_by_project_spec (items : list (item_type * Path)) :
  NoDup (map fst (exclusions_by_project base_path items))
  /\ forall k, group_get k (exclusions_by_project base_path items)
               = expected_group base_path k items.
Proof.
  unfold exclusions_by_project.
  induction items as [|x items [Hnd Hget]] using rev_ind.
  - split; [constructor | reflexivity].
  - rewrite fold_left_app. simpl.
    set (d := fold_left (add_exclusion base_path) items []) in *.
    unfold add_exclusion.
    destruct (Pathlib.relative_to (snd x) base_path) as [rel|] eqn:R.
    + split.
      * destruct (fst x); now apply group_update_NoDup.
      * intros k. rewrite expected_group_snoc.
        unfold in_group, rel_str. rewrite R.
        rewrite (String.eqb_sym (project_key rel) k).
        destruct (fst x); rewrite group_get_update;
          destruct (String.eqb_spec k (project_key rel)) as [->|_];
          rewrite <- ?Hget; try reflexivity.
    + split; [exact Hnd|].
      intros k. rewrite expected_group_snoc. unfold in_group. rewrite R.
      apply Hget.
Qed.

End ListingFacts.

(** X17.  The listing of exclusions prints each project once, the projects
    in ascending order, and under each project its directories and then its
    files, each in ascending order. *)
Theorem exclusion_listing_sorted (base_path : Path)
  (excluded_items : list (item_type * Path)) :
  let listing := exclusion_listing base_path excluded_items in
  NoDup (map fst listing)
  /\ StronglySorted (fun a b => string_le (fst a) (fst b)) listing
  /\ Forall (fun row => StronglySorted string_le (fst (snd row))
                        /\ StronglySorted string_le (snd (snd row)))
            listing.
Proof.
  intros listing. unfold listing, exclusion_listing.
  destruct (exclusions_by_project_spec base_path excluded_items) as [Hnd _].
  set (d := exclusions_by_project base_path excluded_items) in *.
  split; [|split].
  - rewrite map_map. simpl.
    eapply Permutation_NoDup; [|exact Hnd].
    apply Permutation_map. symmetry. apply sort_groups_perm.
  - generalize (sort_groups_sorted d).
    induction 1 as [|y l Hs IH Hy]; simpl; constructor; [exact IH|].
    apply Forall_forall. intros z Hz. apply in_map_iff in Hz.
    destruct Hz as [w [<- Hw]]. simpl.
    rewrite Forall_forall in Hy. now apply Hy.
  - apply Forall_forall. intros row Hrow. apply in_map_iff in Hrow.
    destruct Hrow as [kg [<- _]]. simpl.
    split; apply sort_strings_sorted.
Qed.

(** X18.  The listing of exclusions is exact: a project is listed exactly
    when the log has an entry whose path relative to [base_path] starts with
    it, and its directories and files are then those entries of the log, in
    sorted order, each printed once as its relative path.  An entry that is
    not below [base_path] is left out. *)
Theorem exclusion_listing_exact (base_path : Path)
  (excluded_items : list (item_type * Path)) (k : string)
  (ds fs : list string) :
  let mine := filter (in_group base_path k) excluded_items in
  In (k, (ds, fs)) (exclusion_listing base_path excluded_items)
  <-> mine <> []
      /\ ds = sort_strings (map (rel_str base_path) (filter is_dir_item mine))
      /\ fs = sort_strings (map (rel_str base_path) (filter is_file_item mine))
      /\ Permutation ds (map (rel_str base_path) (filter is_dir_item mine))
      /\ Permutation fs (map (rel_str base_path) (filter is_file_item mine)).
Proof.
  intros mine.
  destruct (exclusions_by_project_spec base_path excluded_items) as [Hnd Hget].
  unfold exclusion_listing.
  set (d := exclusions_by_project base_path excluded_items) in *.
  assert (G : forall g, In (k, g) (sort_groups d)
                        <-> expected_group base_path k excluded_items = Some g).
  { intros g. rewrite <- Hget, <- (group_get_In d k g Hnd).
    split; apply Permutation_in;
      [apply sort_groups_perm | symmetry; apply sort_groups_perm]. }
  unfold expected_group in G. fold mine in G.
  split.
  - intros H. apply in_map_iff in H. destruct H as [[k' g] [E Hin]].
    simpl in E. injection E as -> <- <-.
    apply G in Hin. destruct mine as [|m0 mine'] eqn:M; [discriminate|].
    injection Hin as <-. unfold group_of. cbn [g_dirs g_files].
    split; [discriminate|]. split; [reflexivity|]. split; [reflexivity|].
    split; apply sort_strings_perm.
  - intros [Hne [-> [-> _]]].
    apply in_map_iff.
    exists (k, group_of base_path mine).
    split; [reflexivity|]. apply G.
    destruct mine; [congruence | reflexivity].
Qed.

(** X19.  The listing is complete for the files: after a traversal with
    [--show-exclusions], every file the filter excluded is printed, as its
    path relative to [base_path], among the files of the project named by
    the first segment of that path (its aggregation key, not the project
    whose rule excluded it). *)
Theorem excluded_files_are_listed (base_path : Path) (dev_root : option Path)
  (tree : list entry) (w : walked) :
  let dev := match dev_root with Some d => d | None => base_path end in
  In w (walked_files base_path tree) ->
  should_exclude (fst w) base_path dev = Some true ->
  exists st ds fs,
    traverse base_path dev_root true tree = Some st
    /\ In (key_of base_path w, (ds, fs))
          (exclusion_listing base_path (excluded_items st))
    /\ In (rel_str base_path (ItemFile, fst w)) fs.
Proof.
  intros dev Hw Hx.
  destruct (traverse_log base_path dev_root tree) as [st [E [F _]]].
  fold dev in F.
  set (k := key_of base_path w).
  set (it := (ItemFile, fst w) : item_type * Path).
  assert (Hit : In it (filter (in_group base_path k) (excluded_items st))).
  { apply filter_In. split.
    - assert (H : In it (filter is_file_item (excluded_items st))).
      { rewrite F. apply in_map_iff. exists w. split; [reflexivity|].
        apply filter_In. split; [exact Hw|].
        unfold is_excluded. now rewrite Hx. }
      apply filter_In in H. tauto.
    - pose proof (walked_under base_path tree) as U.
      rewrite Forall_forall in U. destruct (U w Hw) as [rel [_ Hrel]].
      unfold in_group, k, key_of, it. simpl.
      rewrite Hrel, relative_to_extend. apply String.eqb_refl. }
  destruct (exclusions_by_project_spec base_path (excluded_items st))
    as [Hnd Hget].
  set (mine := filter (in_group base_path k) (excluded_items st)) in *.
  exists st,
    (sort_strings (g_dirs (group_of base_path mine))),
    (sort_strings (g_files (group_of base_path mine))).
  split; [exact E|]. split.
  - unfold exclusion_listing. apply in_map_iff.
    exists (k, group_of base_path mine). split; [reflexivity|].
    apply (Permutation_in _ (Permutation_sym (sort_groups_perm _))).
    apply (group_get_In _ _ _ Hnd). rewrite Hget.
    unfold expected_group. fold mine.
    destruct mine; [contradiction | reflexivity].
  - apply (Permutation_in _ (Permutation_sym (sort_strings_perm _))).
    unfold group_of. simpl. apply in_map. apply filter_In.
    split; [exact Hit | reflexivity].
Qed.

Lemma excluded_files_are_listed_witness :
  exists st ds fs,
    traverse (mkPath "/" ["dev"]) None true spec_tree = Some st
    /\ In ("projA", (ds, fs))
          (exclusion_listing (mkPath "/" ["dev"]) (excluded_items st))
    /\ In "projA/b.log" fs.
Proof.
  apply (excluded_files_are_listed (mkPath "/" ["dev"]) None spec_tree
           (mkPath "/" ["dev"; "projA"; "b.log"], text_file 10)).
  - simpl. auto.
  - reflexivity.
Defined.

(** X20.  The totals of the report are exact: [total_files] is the number
    of encountered files that the filter includes, [total_lines] the sum of
    what [count_lines_in_file] returns on them, and the excluded-file count
    the number of encountered files that the filter excludes. *)
Theorem totals_are_exact (base_path : Path) (dev_root : option Path)
  (show_exclusions : bool) (tree : list entry) :
  let dev := match dev_root with Some d => d | None => base_path end in
  let ws := walked_files base_path tree in
  exists r,
    count_project_lines base_path dev_root show_exclusions tree = Some r
    /\ total_row r
       = (List.length (filter (is_included base_path dev) ws),
          list_sum (map lines_of (filter (is_included base_path dev) ws)))
    /\ excluded_count r = List.length (filter (is_excluded base_path dev) ws).
Proof.
  intros dev ws.
  destruct (traverse_accounts base_path dev_root show_exclusions tree)
    as [st [E A]]. fold dev ws in A.
  exists (report_of st). unfold count_project_lines. rewrite E. simpl.
  split; [reflexivity|].
  rewrite (acc_files _ _ _ _ A), (acc_lines _ _ _ _ A), (acc_excluded _ _ _ _ A).
  split; reflexivity.
Qed.
